(** * A model of scripts/windows_build_wheels.py

    The script is build glue: it saves and restores the process
    environment and working directory around blocks of work, creates
    directories, and runs external tools.  The model below keeps the
    process-wide state the script mutates in one record, [World], and
    writes every function of the script as a computation in a small
    state-and-exception monad over it. *)

From Stdlib Require Import String Ascii List Bool Arith ZArith Lia.
From stdpp Require Import base option strings list gmap fin_maps.

Local Open Scope string_scope.
Local Open Scope list_scope.
Local Open Scope stdpp_scope.

(** ** Data *)

(** A path is the list of its components: [C:/P/IPP] is ["C:"; "P"; "IPP"].
    All paths handled by the script are absolute. *)
Abbreviation path := (list string).

(** What the file system stores at a path. *)
Inductive node :=
| Dir
| File (content : string).

Inductive errno := EEXIST | ENOENT | ENOTDIR | EACCES.

#[global] Instance node_eq_dec : EqDecision node.
Proof. solve_decision. Defined.
#[global] Instance errno_eq_dec : EqDecision errno.
Proof. solve_decision. Defined.

(** The exceptions that can travel through the script. *)
Inductive exn :=
| OSError (e : errno) (p : path)
| FileNotFoundError (msg : string)
| KeyError (key : string)
| CalledProcessError (cmd : list string)
| ValueError (doc : string)
| Exception (msg : string).

(** One external process started by the script, with the environment and
    working directory it inherited. *)
Record call := Call {
  argv : list string;
  penv : gmap string string;
  pcwd : path
}.

Record World := mkWorld {
  environ : gmap string string;      (* os.environ, names as the platform stores them *)
  cwd : path;                        (* os.getcwd() *)
  fs : gmap path node;               (* files and directories *)
  denied : gset path;                (* directories that refuse new entries *)
  calls : list call;                 (* processes started so far, oldest first *)
  stdout : list string               (* lines printed so far, oldest first *)
}.

Definition set_environ (e : gmap string string) (w : World) : World :=
  mkWorld e (cwd w) (fs w) (denied w) (calls w) (stdout w).
Definition set_cwd (d : path) (w : World) : World :=
  mkWorld (environ w) d (fs w) (denied w) (calls w) (stdout w).
Definition set_fs (f : gmap path node) (w : World) : World :=
  mkWorld (environ w) (cwd w) f (denied w) (calls w) (stdout w).
Definition add_call (c : call) (w : World) : World :=
  mkWorld (environ w) (cwd w) (fs w) (denied w) (calls w ++ [c]) (stdout w).
Definition add_stdout (l : string) (w : World) : World :=
  mkWorld (environ w) (cwd w) (fs w) (denied w) (calls w) (stdout w ++ [l]).

(** ** The monad: state passing with exceptions *)

Inductive res (A : Type) :=
| Ok (a : A)
| Raise (e : exn).
Arguments Ok {A} a.
Arguments Raise {A} e.

Definition M (A : Type) : Type := World → res A * World.

Definition ret {A} (a : A) : M A := λ w, (Ok a, w).
Definition bind {A B} (m : M A) (k : A → M B) : M B := λ w,
  match m w with
  | (Ok a, w') => k a w'
  | (Raise e, w') => (Raise e, w')
  end.

Notation "'let!' x ':=' m 'in' k" := (bind m (λ x, k))
  (at level 10, x name, m at level 100, k at level 200).
Notation "m >> k" := (bind m (λ _, k))
  (at level 65, right associativity).

Definition raise {A} (e : exn) : M A := λ w, (Raise e, w).
Definition get : M World := λ w, (Ok w, w).
Definition modify (f : World → World) : M unit := λ w, (Ok tt, f w).

(** [try: body finally: fin]: [fin] runs on both outcomes of [body]; an
    exception of [fin] replaces the outcome of [body]. *)
Definition try_finally {A} (body : M A) (fin : M unit) : M A := λ w,
  match body w with
  | (r, w1) =>
      match fin w1 with
      | (Ok _, w2) => (r, w2)
      | (Raise e, w2) => (Raise e, w2)
      end
  end.

(** [with obj: body] for an object with [__enter__] and [__exit__]; the
    [__exit__] methods of the script return [None], so an exception of
    the body is re-raised after [__exit__] has run.  When [__enter__]
    raises, neither the body nor [__exit__] runs. *)
Definition with_object {S A} (enter : M S) (exit : S → M unit) (body : M A) : M A :=
  let! self := enter in try_finally body (exit self).

(** [with gen(): body] for a generator function decorated with
    [contextlib.contextmanager]: [before] is the code up to the [yield]
    and [after] the code following it.  An exception of the body is
    thrown into the generator at the [yield]; a generator that has no
    [try] around its [yield] lets it escape there, so [after] is skipped. *)
Definition with_generator {S A} (before : M S) (after : S → M unit) (body : M A) : M A :=
  let! saved := before in let! a := body in after saved >> ret a.

Fixpoint for_each {A} (l : list A) (body : A → M unit) : M unit :=
  match l with
  | [] => ret tt
  | x :: l' => body x >> for_each l' body
  end.

(** ** The operating system, as far as the script uses it *)

Definition print (line : string) : M unit := modify (add_stdout line).

(** [os.path.join(p, c)] for one more component; [".."] steps to the
    parent directory. *)
Definition os_path_join (p : path) (c : string) : path :=
  if String.eqb c ".." then removelast p else p ++ [c].

(** The root of the name space is a directory; below it the store decides. *)
Definition lookup_node (f : gmap path node) (p : path) : option node :=
  match p with
  | [] => Some Dir
  | _ => f !! p
  end.

Definition is_dir (f : gmap path node) (p : path) : bool :=
  match lookup_node f p with Some Dir => true | _ => false end.
Definition is_file (f : gmap path node) (p : path) : bool :=
  match lookup_node f p with Some (File _) => true | _ => false end.
Definition path_exists (f : gmap path node) (p : path) : bool :=
  match lookup_node f p with Some _ => true | None => false end.

Definition os_path_exists (p : path) : M bool := λ w, (Ok (path_exists (fs w) p), w).
Definition os_getcwd : M path := λ w, (Ok (cwd w), w).

Definition os_chdir (p : path) : M unit := λ w,
  match lookup_node (fs w) p with
  | Some Dir => (Ok tt, set_cwd p w)
  | Some (File _) => (Raise (OSError ENOTDIR p), w)
  | None => (Raise (OSError ENOENT p), w)
  end.

(** [os.mkdir]: one directory, whose parent must be a directory that
    accepts new entries. *)
Definition os_mkdir (p : path) : M unit := λ w,
  if path_exists (fs w) p then (Raise (OSError EEXIST p), w)
  else if negb (is_dir (fs w) (removelast p)) then (Raise (OSError ENOENT p), w)
  else if bool_decide (removelast p ∈ denied w) then (Raise (OSError EACCES p), w)
  else (Ok tt, set_fs (<[p := Dir]> (fs w)) w).

(** [except FileExistsError: pass] around a computation. *)
Definition ignore_file_exists (m : M unit) : M unit := λ w,
  match m w with
  | (Raise (OSError EEXIST _), w') => (Ok tt, w')
  | r => r
  end.

(** [os.makedirs(name)], on the reversed component list [tail :: rhead]:
    when the head does not exist it is created first, recursively, and a
    [FileExistsError] of that recursive call is ignored; then the leaf
    is created with [os.mkdir]. *)
Fixpoint makedirs_rev (rname : list string) : M unit :=
  match rname with
  | [] => os_mkdir []
  | tail :: rhead =>
      let! head_exists := os_path_exists (rev rhead) in
      (if head_exists then ret tt else ignore_file_exists (makedirs_rev rhead)) >>
      os_mkdir (rev (tail :: rhead))
  end.

Definition os_makedirs (name : path) : M unit := makedirs_rev (rev name).

(** [os.remove]: only a regular file can be removed. *)
Definition os_remove (p : path) : M unit := λ w,
  match lookup_node (fs w) p with
  | Some (File _) => (Ok tt, set_fs (delete p (fs w)) w)
  | Some Dir => (Raise (OSError EACCES p), w)
  | None => (Raise (OSError ENOENT p), w)
  end.

(** [shutil.rmtree]: a directory goes with everything below it. *)
Definition shutil_rmtree (p : path) : M unit := λ w,
  match lookup_node (fs w) p with
  | Some Dir =>
      (Ok tt, set_fs (filter (λ kv : path * node, ¬ p `prefix_of` kv.1) (fs w)) w)
  | Some (File _) => (Raise (OSError ENOTDIR p), w)
  | None => (Raise (OSError ENOENT p), w)
  end.

(** The entry of directory [root] that a stored path stands for, if any. *)
Definition entry_of (root : path) (kv : path * node) : option (string * node) :=
  match rev kv.1 with
  | [] => None
  | c :: rp => if decide (rev rp = root) then Some (c, kv.2) else None
  end.

Definition listdir (f : gmap path node) (root : path) : list (string * node) :=
  omap (entry_of root) (map_to_list f).

Definition file_names (l : list (string * node)) : list string :=
  omap (λ cn : string * node, match cn.2 with File _ => Some cn.1 | Dir => None end) l.
Definition dir_names (l : list (string * node)) : list string :=
  omap (λ cn : string * node, match cn.2 with Dir => Some cn.1 | File _ => None end) l.

(** The directories [os.walk(top)] visits: [top] and every directory
    stored below it. *)
Definition walk_dirs (f : gmap path node) (top : path) : list path :=
  top :: filter (λ p, top `prefix_of` p ∧ p ≠ top ∧ is_dir f p) (map_to_list f).*1.

(** [os.walk(top)]: one triple (root, directory names, file names) per
    directory of the tree; nothing when [top] is not a directory.  The
    triples are computed from the store as it is when the walk starts;
    the loop of the script that consumes them removes regular files
    only, which changes neither the directories visited later nor the
    listing of any other directory. *)
Definition os_walk (top : path) : M (list (path * list string * list string)) := λ w,
  (Ok (if is_dir (fs w) top
       then map (λ root, (root, dir_names (listdir (fs w) root),
                                file_names (listdir (fs w) root)))
                (walk_dirs (fs w) top)
       else []), w).

(** What a file opened in text mode hands out for the stored text:
    with [newline=None], the default of [open], a carriage return
    followed by a line feed, and a carriage return on its own, both
    read as one line feed. *)
Fixpoint universal_newlines (s : string) : string :=
  match s with
  | EmptyString => EmptyString
  | String c s' =>
      if Ascii.eqb c "013"%char then
        match s' with
        | String d s'' =>
            if Ascii.eqb d "010"%char
            then String "010"%char (universal_newlines s'')
            else String "010"%char (universal_newlines s')
        | EmptyString => String "010"%char EmptyString
        end
      else String c (universal_newlines s')
  end.

(** [open(p, "r")] and what is then read from it: the text of a
    regular file, its line ends translated. *)
Definition open_read (p : path) : M string := λ w,
  match lookup_node (fs w) p with
  | Some (File content) => (Ok (universal_newlines content), w)
  | Some Dir => (Raise (OSError EACCES p), w)
  | None => (Raise (OSError ENOENT p), w)
  end.

(** Writing a whole file, as [write] followed by [flush] on a file
    that is already open. *)
Definition write_file (p : path) (content : string) : M unit :=
  modify (λ w, set_fs (<[p := File content]> (fs w)) w).

Definition environ_get (var : string) : M string := λ w,
  match environ w !! var with
  | Some v => (Ok v, w)
  | None => (Raise (KeyError var), w)
  end.
Definition environ_set (var value : string) : M unit :=
  modify (λ w, set_environ (<[var := value]> (environ w)) w).
Definition environ_del (var : string) : M unit :=
  modify (λ w, set_environ (delete var (environ w)) w).
Definition environ_contains (var : string) : M bool := λ w,
  (Ok (bool_decide (is_Some (environ w !! var))), w).
Definition environ_clear : M unit := modify (set_environ ∅).

(** ** Strings *)

Definition newline : string := String "010"%char EmptyString.
Definition dquote : string := String "034"%char EmptyString.

(** [s.split("-")[0]]: the text before the first dash. *)
Fixpoint before_dash (s : string) : string :=
  match s with
  | EmptyString => EmptyString
  | String c s' => if Ascii.eqb c "-"%char then EmptyString else String c (before_dash s')
  end.

(** [f.readline()] on a file just opened: the first line with its
    newline, or the whole text when it holds no newline. *)
Fixpoint readline (s : string) : string :=
  match s with
  | EmptyString => EmptyString
  | String c s' =>
      if Ascii.eqb c "010"%char then String c EmptyString else String c (readline s')
  end.

(** What [for x in s] yields for a string [s]: its characters, each as
    a string of length one. *)
Fixpoint iter_str (s : string) : list string :=
  match s with
  | EmptyString => []
  | String c s' => String c EmptyString :: iter_str s'
  end.

(** [s.rfind(c)], with [-1] for no occurrence; [i] is the index of the
    first character of [s]. *)
Fixpoint rfind_from (c : ascii) (s : string) (i : Z) : Z :=
  match s with
  | EmptyString => (-1)%Z
  | String d s' =>
      let r := rfind_from c s' (i + 1)%Z in
      if (0 <=? r)%Z then r else if Ascii.eqb d c then i else (-1)%Z
  end.
Definition rfind (c : ascii) (s : string) : Z := rfind_from c s 0%Z.

Definition substr_from (i : Z) (s : string) : string :=
  String.substring (Z.to_nat i) (String.length s - Z.to_nat i) s.
Definition substr_to (i : Z) (s : string) : string :=
  String.substring 0 (Z.to_nat i) s.

(** The loop of [genericpath._splitext] that skips leading dots: is
    there a character other than a dot in [p[i:dot]]? *)
Fixpoint has_non_dot (p : string) (i : Z) (n : nat) : bool :=
  match n with
  | O => false
  | S n' =>
      match String.get (Z.to_nat i) p with
      | Some c => if Ascii.eqb c "."%char then has_non_dot p (i + 1)%Z n' else true
      | None => true
      end
  end.

(** [os.path.splitext] of ntpath. *)
Definition os_path_splitext (p : string) : string * string :=
  let sepIndex := Z.max (rfind "092"%char p) (rfind "/"%char p) in
  let dotIndex := rfind "."%char p in
  if (sepIndex <? dotIndex)%Z
     && has_non_dot p (sepIndex + 1)%Z (Z.to_nat (dotIndex - (sepIndex + 1)))
  then (substr_to dotIndex p, substr_from dotIndex p)
  else (p, EmptyString).

(** ** JSON values, as far as the script can tell them apart *)

(** The value of a member of a JSON object: a string, [null], or
    anything else (a number, a boolean, an array, an object). *)
Inductive json_value :=
| JString (s : string)
| JNull
| JOther.

(** What [json.loads] returns: the dictionary of a JSON object, with
    its members in order, or some other value (a list, a string, a
    number, a boolean, [None]). *)
Inductive json :=
| JObject (members : list (string * json_value))
| JNotObject.

(** ** What the script takes from its surroundings *)

Class Platform := {
  (* how a path reads as text, in messages and on command lines *)
  path_str : path → string;
  (* os.path.dirname(__file__) *)
  SCRIPT_DIR : path;
  (* running a program to completion: from its arguments, environment,
     working directory and the file system, whether it exits with
     status 0, what it writes to its standard output, and the file
     system it leaves; the programs the script names are taken to be
     there to be started, so that an exit status always stands for a
     program that ran *)
  spawn : list string → gmap string string → path → gmap path node
          → bool * string * gmap path node;
  (* json.loads on the decoded, stripped output of the query helper:
     the value of the JSON text; no result when the output is not
     valid UTF-8 or the text is not valid JSON, for which the decoding
     and json.loads raise a ValueError *)
  json_loads : string → option json;
  (* the name tempfile picks for a new temporary file *)
  temp_name : gmap path node → path
}.

Section Script.
Context `{Platform}.

Definition ROOT_DIR : path := os_path_join SCRIPT_DIR "..".
Definition STANDALONE_DIR : path := os_path_join ROOT_DIR "standalone-build".

(** The state once a program has run: the process is on record with
    the environment and working directory it inherited, and the file
    system is the one the program left. *)
Definition started (args : list string) (w : World) : World :=
  set_fs (spawn args (environ w) (cwd w) (fs w)).2
         (add_call (Call args (environ w) (cwd w)) w).

Definition run_process (args : list string) : M (bool * string) := λ w,
  (Ok (spawn args (environ w) (cwd w) (fs w)).1, started args w).

(** [subprocess.check_call]: a non-zero exit status is an exception. *)
Definition check_call (args : list string) : M unit :=
  let! r := run_process args in
  if r.1 then ret tt else raise (CalledProcessError args).

(** [subprocess.check_output]: the same, returning the captured output. *)
Definition check_output (args : list string) : M string :=
  let! r := run_process args in
  if r.1 then ret r.2 else raise (CalledProcessError args).

(** ** The script *)

Definition mkdir_p (path : path) : M unit := λ w,
  match os_makedirs path w with
  | (Ok _, w') => (Ok tt, w')
  | (Raise (OSError e p), w') =>
      if bool_decide (e = EEXIST) && is_dir (fs w') path
      then (Ok tt, w')
      else (Raise (OSError e p), w')
  | (Raise exc, w') => (Raise exc, w')
  end.

(** [push_env], up to its [yield]. *)
Definition push_env_before (kwargs : list (string * option string))
  : M (gmap string string) :=
  let! w := get in
  let saved_env := environ w in
  for_each kwargs (λ kv,
    match kv.2 with
    | Some value => environ_set kv.1 value
    | None =>
        let! present := environ_contains kv.1 in
        if present then environ_del kv.1 else ret tt
    end) >>
  ret saved_env.

(** [push_env], after its [yield]. *)
Definition push_env_after (saved_env : gmap string string) : M unit :=
  environ_clear >>
  for_each (map_to_list saved_env) (λ kv, environ_set kv.1 kv.2).

(** [with push_env(...): body], the keyword arguments given as a list. *)
Definition push_env {A} (kwargs : list (string * option string)) (body : M A) : M A :=
  with_generator (push_env_before kwargs) push_env_after body.

Record push_dir_object := PushDir {
  directory : option path;
  make_directory : bool;
  old_cwd : option path
}.

Definition push_dir_init (directory : option path) (make_directory : bool)
  : push_dir_object :=
  PushDir directory make_directory None.

Definition push_dir_enter (self : push_dir_object) : M push_dir_object :=
  let! c := os_getcwd in
  let self := PushDir (directory self) (make_directory self) (Some c) in
  match directory self with
  | Some d =>
      (if make_directory self then mkdir_p d else ret tt) >>
      os_chdir d >>
      ret self
  | None => ret self
  end.

Definition push_dir_exit (self : push_dir_object) : M unit :=
  match old_cwd self with
  | Some c => os_chdir c
  | None => raise (Exception "TypeError")
  end.

(** [with push_dir(directory=..., make_directory=...): body], the
    object being built by the [with] statement itself, as at every use
    in the script. *)
Definition push_dir {A} (directory : option path) (make_directory : bool)
    (body : M A) : M A :=
  with_object (push_dir_enter (push_dir_init directory make_directory))
              push_dir_exit body.

Definition pip_install (python_dir : path) (package : string) : M unit :=
  let pip := os_path_join (os_path_join python_dir "Scripts") "pip.exe" in
  print ("Installing $package using " +:+ path_str pip) >>
  check_call [path_str pip; "install"; package].

Definition prepare_build_env (python_version : string) : M unit :=
  let python_dir := ["C:"; "Python" +:+ python_version] in
  let! found := os_path_exists python_dir in
  if negb found then
    raise (FileNotFoundError
             ("Aborting. python_dir [" +:+ path_str python_dir +:+ "] does not exist."))
  else
    let venv := os_path_join (os_path_join python_dir "Scripts") "virtualenv.exe" in
    let venv_dir := os_path_join ROOT_DIR ("venv-" +:+ python_version) in
    print ("Creating python virtual environment: " +:+ path_str venv_dir) >>
    let! venv_found := os_path_exists venv_dir in
    (if negb venv_found then check_call [path_str venv; path_str venv_dir] else ret tt) >>
    pip_install venv_dir "scikit-build".

(** The helper program of the generator query, after [textwrap.dedent]. *)
Definition helper_program : string :=
  newline +:+
  "import json" +:+ newline +:+
  "from skbuild.platform_specifics.windows import WindowsPlatform" +:+ newline +:+
  "# Instantiate" +:+ newline +:+
  "build_platform = WindowsPlatform()" +:+ newline +:+
  "generator = build_platform.default_generators[0]" +:+ newline +:+
  "assert generator.name == " +:+ dquote +:+ "Ninja" +:+ dquote +:+ newline +:+
  "print(json.dumps(generator.env))" +:+ newline.

(** [build_wheel], the branch [if single_wheel:]. *)
Definition build_single_wheel
    (python_executable python_include_dir build_path setup_py_configure
       ninja_executable : path)
    (python_library source_path build_type : string) : M unit :=
  print "#" >>
  print "# Build single ITK wheel" >>
  print "#" >>
  (* Configure setup.py *)
  check_call [path_str python_executable; path_str setup_py_configure; "itk"] >>
  (* Generate wheel *)
  check_call [
    path_str python_executable;
    "setup.py"; "bdist_wheel";
    "--build-type"; build_type; "-G"; "Ninja";
    "--";
    "-DCMAKE_MAKE_PROGRAM:FILEPATH=" +:+ path_str ninja_executable;
    "-DITK_SOURCE_DIR:PATH=" +:+ source_path;
    "-DITK_BINARY_DIR:PATH=" +:+ path_str build_path;
    "-DPYTHON_EXECUTABLE:FILEPATH=" +:+ path_str python_executable;
    "-DPYTHON_INCLUDE_DIR:PATH=" +:+ path_str python_include_dir;
    "-DPYTHON_LIBRARY:FILEPATH=" +:+ python_library
  ] >>
  (* Cleanup *)
  check_call [path_str python_executable; "setup.py"; "clean"].

(** [build_wheel], the [try: ... finally: ...] statement of the branch
    for multiple wheels.  [tempfile.NamedTemporaryFile(delete=False)]
    is taken to succeed: it leaves an empty file under the name the
    platform picks. *)
Definition query_generator_env (python_executable : path) : M json :=
  let! w := get in
  let script_file := temp_name (fs w) in
  try_finally
    (write_file script_file "" >>
     write_file script_file helper_program >>
     let! output := check_output [path_str python_executable; path_str script_file] in
     match json_loads output with
     | Some build_env => ret build_env
     | None => raise (ValueError output)
     end)
    (os_remove script_file).

(** [build_wheel], the block under [# Build ITK python], with the
    keyword arguments of [push_env] at hand. *)
Definition build_itk_python
    (python_executable python_include_dir build_path ninja_executable : path)
    (python_library source_path build_type : string)
    (build_env : list (string * option string)) : M unit :=
  let py_site_packages_path :=
    os_path_join (os_path_join (os_path_join SCRIPT_DIR "..") "_skbuild") "cmake-install" in
  push_dir (Some build_path) true (push_env build_env (
    check_call [
      "cmake";
      "-DCMAKE_BUILD_TYPE:STRING=" +:+ build_type;
      "-DITK_SOURCE_DIR:PATH=" +:+ source_path;
      "-DITK_BINARY_DIR:PATH=" +:+ path_str build_path;
      "-DBUILD_TESTING:BOOL=OFF";
      "-DPYTHON_EXECUTABLE:FILEPATH=" +:+ path_str python_executable;
      "-DPYTHON_INCLUDE_DIR:PATH=" +:+ path_str python_include_dir;
      "-DPYTHON_LIBRARY:FILEPATH=" +:+ python_library;
      "-DWRAP_ITK_INSTALL_COMPONENT_IDENTIFIER:STRING=PythonWheel";
      "-DWRAP_ITK_INSTALL_COMPONENT_PER_MODULE:BOOL=ON";
      "-DPY_SITE_PACKAGES_PATH:PATH=" +:+ path_str py_site_packages_path;
      "-DITK_LEGACY_SILENT:BOOL=ON";
      "-DITK_WRAP_PYTHON:BOOL=ON";
      "-DITK_WRAP_PYTHON_LEGACY:BOOL=OFF";
      "-G"; "Ninja";
      source_path
    ] >>
    check_call [path_str ninja_executable])).

(** The keyword arguments that the members of a dictionary give
    [push_env], as far as [push_env] gets with them: up to the first
    value that is neither a string nor [None], and whether every value
    is one of the two. *)
Fixpoint str_members (members : list (string * json_value))
  : list (string * option string) * bool :=
  match members with
  | [] => ([], true)
  | (var, JString value) :: rest =>
      let (kwargs, all_str) := str_members rest in ((var, Some value) :: kwargs, all_str)
  | (var, JNull) :: rest =>
      let (kwargs, all_str) := str_members rest in ((var, None) :: kwargs, all_str)
  | (var, JOther) :: _ => ([], false)
  end.

(** [build_wheel], the [with] statement under [# Build ITK python] for
    whatever [json.loads] returned.  [push_dir(...)] is entered first.
    Then [push_env] is called with the keyword arguments unpacked from
    [build_env]: for a value that is no dictionary the call itself
    raises [TypeError]; for a dictionary the generator runs up to its
    [yield], and [os.environ[var] = value] raises [TypeError] at the
    first value that is neither a string nor [None], the variables
    before it having been set.  Both happen inside the scope of
    [push_dir], whose [__exit__] runs. *)
Definition build_itk_python_with
    (python_executable python_include_dir build_path ninja_executable : path)
    (python_library source_path build_type : string)
    (build_env : json) : M unit :=
  match build_env with
  | JNotObject =>
      push_dir (Some build_path) true (raise (Exception "TypeError"))
  | JObject members =>
      let (kwargs, all_str) := str_members members in
      if all_str
      then build_itk_python python_executable python_include_dir build_path
             ninja_executable python_library source_path build_type kwargs
      else push_dir (Some build_path) true
             (push_env_before kwargs >> raise (Exception "TypeError"))
  end.

(** [build_wheel], the body of [for wheel_name in wheel_names:]. *)
Definition build_named_wheel
    (python_executable python_include_dir build_path setup_py_configure : path)
    (python_library source_path build_type : string)
    (wheel_name : string) : M unit :=
  (* Configure setup.py *)
  check_call [path_str python_executable; path_str setup_py_configure; wheel_name] >>
  (* Generate wheel *)
  check_call [
    path_str python_executable;
    "setup.py"; "bdist_wheel";
    "--build-type"; build_type; "-G"; "Ninja";
    "--";
    "-DITK_SOURCE_DIR:PATH=" +:+ source_path;
    "-DITK_BINARY_DIR:PATH=" +:+ path_str build_path;
    "-DITKPythonPackage_ITK_BINARY_REUSE:BOOL=ON";
    "-DITKPythonPackage_WHEEL_NAME:STRING=" +:+ wheel_name;
    "-DPYTHON_EXECUTABLE:FILEPATH=" +:+ path_str python_executable;
    "-DPYTHON_INCLUDE_DIR:PATH=" +:+ path_str python_include_dir;
    "-DPYTHON_LIBRARY:FILEPATH=" +:+ python_library
  ] >>
  (* Cleanup *)
  check_call [path_str python_executable; "setup.py"; "clean"].

(** [build_wheel], the block under [# Build wheels]: the manifest is
    read with [readline], and the [for] statement runs over the string
    that [readline] returned. *)
Definition build_named_wheels
    (python_executable python_include_dir build_path setup_py_configure : path)
    (python_library source_path build_type : string) : M unit :=
  let! content :=
    open_read (os_path_join (os_path_join SCRIPT_DIR "..") "WHEEL_NAMES.txt") in
  let wheel_names := readline content in
  for_each (iter_str wheel_names)
    (build_named_wheel python_executable python_include_dir build_path
       setup_py_configure python_library source_path build_type).

(** [build_wheel], the branch [else:] of [if single_wheel:]. *)
Definition build_multiple_wheels
    (python_executable python_include_dir build_path setup_py_configure
       ninja_executable : path)
    (python_library source_path build_type : string) : M unit :=
  print "#" >>
  print "# Build multiple ITK wheels" >>
  print "#" >>
  let! build_env := query_generator_env python_executable in
  build_itk_python_with python_executable python_include_dir build_path
    ninja_executable python_library source_path build_type build_env >>
  build_named_wheels python_executable python_include_dir build_path
    setup_py_configure python_library source_path build_type.

(** [build_wheel], the block under
    [# Remove unnecessary files for building against ITK]. *)
Definition remove_unnecessary_files (build_path : path) : M unit :=
  let! triples := os_walk build_path in
  for_each triples (λ triple,
    let root := triple.1.1 in
    let file_list := triple.2 in
    for_each file_list (λ filename,
      let extension := (os_path_splitext filename).2 in
      if bool_decide (extension ∈ [".cpp"; ".xml"; ".obj"])
      then os_remove (os_path_join root filename)
      else ret tt)) >>
  shutil_rmtree (os_path_join (os_path_join build_path "Wrapping") "Generators").

(** [build_wheel], the body of [with push_env(PATH=...):]. *)
Definition build_wheel_in_env (python_version : string) (single_wheel : bool)
    (python_executable python_include_dir pip ninja_executable : path)
    (python_library : string) : M unit :=
  (* Install dependencies *)
  check_call [path_str pip; "install";
              "-r"; path_str (os_path_join ROOT_DIR "requirements-dev.txt")] >>
  let build_type := "Release" in
  let source_path := path_str STANDALONE_DIR +:+ "/ITK-source" in
  let build_path := ["C:"; "P"; "IPP"; "ITK-win_" +:+ python_version] in
  let setup_py_configure :=
    os_path_join (os_path_join SCRIPT_DIR "..") "setup_py_configure.py" in
  (* Clean up previous invocations *)
  let! present := os_path_exists build_path in
  (if present then shutil_rmtree build_path else ret tt) >>
  (if single_wheel
   then build_single_wheel python_executable python_include_dir build_path
          setup_py_configure ninja_executable python_library source_path build_type
   else build_multiple_wheels python_executable python_include_dir build_path
          setup_py_configure ninja_executable python_library source_path build_type) >>
  remove_unnecessary_files build_path.

Definition build_wheel (python_version : string) (single_wheel : bool) : M unit :=
  let venv_dir := os_path_join ROOT_DIR ("venv-" +:+ python_version) in
  let python_executable := os_path_join (os_path_join venv_dir "Scripts") "python.exe" in
  let python_include_dir := os_path_join venv_dir "Include" in
  let xy_ver := before_dash python_version in
  let python_library :=
    "C:/Python" +:+ python_version +:+ "/libs/python" +:+ xy_ver +:+ ".lib" in
  print "" >>
  print ("PYTHON_EXECUTABLE: " +:+ path_str python_executable) >>
  print ("PYTHON_INCLUDE_DIR: " +:+ path_str python_include_dir) >>
  print ("PYTHON_LIBRARY: " +:+ python_library) >>
  let pip := os_path_join (os_path_join venv_dir "Scripts") "pip.exe" in
  let ninja_executable :=
    os_path_join (os_path_join (os_path_join ROOT_DIR "venv-27-x64") "Scripts")
                 "ninja.exe" in
  print ("NINJA_EXECUTABLE:" +:+ path_str ninja_executable) >>
  (* Update PATH *)
  let path := os_path_join venv_dir "Scripts" in
  let! old_path := environ_get "PATH" in
  push_env [("PATH", Some (path_str path +:+ ":" +:+ old_path))]
    (build_wheel_in_env python_version single_wheel python_executable
       python_include_dir pip ninja_executable python_library).

Definition build_wheels : M unit :=
  prepare_build_env "27-x64" >>
  prepare_build_env "35-x64" >>
  prepare_build_env "36-x64" >>
  push_dir (Some STANDALONE_DIR) true (
    let cmake_executable := "cmake.exe" in
    let tools_venv := os_path_join ROOT_DIR "venv-27-x64" in
    pip_install tools_venv "ninja" >>
    let ninja_executable :=
      os_path_join (os_path_join tools_venv "Scripts") "ninja.exe" in
    (* Build standalone project and populate archive cache *)
    check_call [
      cmake_executable;
      "-DITKPythonPackage_BUILD_PYTHON:PATH=0";
      "-G"; "Ninja";
      "-DCMAKE_MAKE_PROGRAM:FILEPATH=" +:+ path_str ninja_executable;
      path_str ROOT_DIR
    ] >>
    check_call [path_str ninja_executable]) >>
  let single_wheel := false in
  (* Compile wheels re-using standalone project and archive cache *)
  build_wheel "27-x64" single_wheel >>
  build_wheel "35-x64" single_wheel >>
  build_wheel "36-x64" single_wheel.

End Script.

(** ** Reference points for the properties *)

(** The environment that the requested changes of [push_env] lead to. *)
Fixpoint apply_kwargs (kwargs : list (string * option string))
    (e : gmap string string) : gmap string string :=
  match kwargs with
  | [] => e
  | (var, Some value) :: rest => apply_kwargs rest (<[var := value]> e)
  | (var, None) :: rest => apply_kwargs rest (delete var e)
  end.

(** A platform to run the model on: paths print with forward slashes,
    every program exits with status 0, prints an empty JSON object and
    leaves the file system alone. *)
Definition demo_platform : Platform := {|
  path_str p := String.concat "/" p;
  SCRIPT_DIR := ["C:"; "IPP"; "scripts"];
  spawn _ _ _ f := (true, "{}", f);
  json_loads _ := Some (JObject []);
  temp_name _ := ["C:"; "Temp"; "tmpq.py"]
|}.

(** A small world: one drive with two directories, the process in the
    first of them. *)
Definition demo_world : World :=
  mkWorld {[ "PATH" := "C:/Windows"; "HOME" := "C:/Users/ci" ]}
          ["C:"; "work"]
          {[ ["C:"] := Dir; ["C:"; "work"] := Dir; ["C:"; "build"] := Dir ]}
          ∅ [] [].

(** A computation only ever adds to the record of processes started. *)
Definition extends_calls {A} (m : M A) : Prop :=
  ∀ w r w', m w = (r, w') → calls w `prefix_of` calls w'.

(** A computation starts no process. *)
Definition keeps_calls {A} (m : M A) : Prop :=
  ∀ w r w', m w = (r, w') → calls w' = calls w.

(** The component names that the processes on record were asked to
    configure: the last argument of every run of the configure script. *)
Definition wheel_names_configured (setup_py_configure : string)
    (cs : list call) : list string :=
  omap (λ c, match argv c with
             | [_; script; name] =>
                 if String.eqb script setup_py_configure then Some name else None
             | _ => None
             end) cs.

(** The small world with a manifest that names one component, [itk]. *)
Definition demo_world_manifest : World :=
  set_fs (<[ ["C:"; "IPP"] := Dir ]>
            (<[ ["C:"; "IPP"; "scripts"] := Dir ]>
               (<[ ["C:"; "IPP"; "WHEEL_NAMES.txt"] := File ("itk" +:+ newline) ]>
                  (fs demo_world)))) demo_world.

(** The three command lines of one round of the loop over the manifest:
    configure, package, clean. *)
Definition named_wheel_commands `{Platform}
    (python_executable python_include_dir build_path setup_py_configure : path)
    (python_library source_path build_type wheel_name : string)
  : list (list string) :=
  [ [path_str python_executable; path_str setup_py_configure; wheel_name];
    [path_str python_executable; "setup.py"; "bdist_wheel";
     "--build-type"; build_type; "-G"; "Ninja"; "--";
     "-DITK_SOURCE_DIR:PATH=" +:+ source_path;
     "-DITK_BINARY_DIR:PATH=" +:+ path_str build_path;
     "-DITKPythonPackage_ITK_BINARY_REUSE:BOOL=ON";
     "-DITKPythonPackage_WHEEL_NAME:STRING=" +:+ wheel_name;
     "-DPYTHON_EXECUTABLE:FILEPATH=" +:+ path_str python_executable;
     "-DPYTHON_INCLUDE_DIR:PATH=" +:+ path_str python_include_dir;
     "-DPYTHON_LIBRARY:FILEPATH=" +:+ python_library];
    [path_str python_executable; "setup.py"; "clean"] ].

(** A file name whose extension is one of the three that the cleanup
    of the build tree removes. *)
Definition intermediate_name (filename : string) : Prop :=
  (os_path_splitext filename).2 ∈ [".cpp"; ".xml"; ".obj"].

(** [f] is the store [f0] without the paths in [D]. *)
Definition swept_store (f0 : gmap path node) (D : path → Prop)
    (f : gmap path node) : Prop :=
  ∀ p, (D p → f !! p = None) ∧ (¬ D p → f !! p = f0 !! p).

(** A build tree with a source file next to a generated one, and a
    generator script in the wrapper-generator directory. *)
Definition demo_build_path : path := ["C:"; "P"; "IPP"; "ITK-win_27-x64"].
Definition demo_build_world : World :=
  mkWorld {[ "PATH" := "C:/Windows" ]} ["C:"]
    (list_to_map
       [ (["C:"], Dir); (["C:"; "P"], Dir); (["C:"; "P"; "IPP"], Dir);
         (demo_build_path, Dir);
         (demo_build_path ++ ["itkImage.h"], File "header");
         (demo_build_path ++ ["itkImagePython.cpp"], File "generated");
         (demo_build_path ++ ["Wrapping"], Dir);
         (demo_build_path ++ ["Wrapping"; "itkImage.xml"], File "castxml");
         (demo_build_path ++ ["Wrapping"; "Generators"], Dir);
         (demo_build_path ++ ["Wrapping"; "Generators"; "igenerator.py"],
          File "script") ])
    ∅ [] [].

(** A regular file with an intermediate extension that sits in a
    directory of the tree below [top] (or in [top] itself). *)
Definition intermediate_file (f : gmap path node) (top p : path) : Prop :=
  ∃ root name, p = root ++ [name] ∧ top `prefix_of` root
    ∧ is_dir f root = true ∧ is_file f p = true ∧ intermediate_name name.

(** A store is tree-shaped when everything stored sits in a directory. *)
Definition wf_fs (f : gmap path node) : Prop :=
  ∀ p n, f !! p = Some n → is_dir f (removelast p) = true.



(** A platform on which every program exits with status 1, printing
    nothing and leaving the file system alone. *)
Definition failing_platform : Platform := {|
  path_str p := String.concat "/" p;
  SCRIPT_DIR := ["C:"; "IPP"; "scripts"];
  spawn _ _ _ f := (false, EmptyString, f);
  json_loads _ := Some (JObject []);
  temp_name _ := ["C:"; "Temp"; "tmpq.py"]
|}.

(** The small world with the root of the first interpreter in place. *)
Definition demo_world_python : World :=
  set_fs (<[ ["C:"; "Python27-x64"] := Dir ]> (fs demo_world)) demo_world.

(** The same world with the isolated environment of that interpreter
    in place as well. *)
Definition demo_world_venv : World :=
  set_fs (<[ ["C:"; "IPP"; "venv-27-x64"] := Dir ]>
            (<[ ["C:"; "IPP"] := Dir ]> (fs demo_world_python))) demo_world_python.

(** A platform on which every program exits with status 0 and leaves
    the sample build tree behind. *)
Definition building_platform : Platform := {|
  path_str p := String.concat "/" p;
  SCRIPT_DIR := ["C:"; "IPP"; "scripts"];
  spawn _ _ _ _ := (true, "{}", fs demo_build_world);
  json_loads _ := Some (JObject []);
  temp_name _ := ["C:"; "Temp"; "tmpq.py"]
|}.

(** The small world with the same manifest as an editor on Windows
    stores it, the line ending in a carriage return and a line feed. *)
Definition demo_world_manifest_crlf : World :=
  set_fs (<[ ["C:"; "IPP"; "WHEEL_NAMES.txt"]
             := File ("itk" +:+ String "013"%char newline) ]>
            (fs demo_world_manifest)) demo_world_manifest.

(** * Properties *)

(** ** The directory-ensure helper *)

Lemma path_exists_is_dir f p : is_dir f p = true → path_exists f p = true.
Proof. unfold is_dir, path_exists. by destruct (lookup_node f p) as [[]|]. Qed.


Lemma is_file_exists f p : is_file f p = true → path_exists f p = true.
Proof. unfold is_file, path_exists. by destruct (lookup_node f p) as [[]|]. Qed.

Lemma lookup_node_insert_ne f p q n :
  p ≠ q → lookup_node (<[p := n]> f) q = lookup_node f q.
Proof. intros Hne. destruct q; [done|]. simpl. by rewrite lookup_insert_ne. Qed.

Lemma lookup_node_insert_dir f p : lookup_node (<[p := Dir]> f) p = Some Dir.
Proof. destruct p; [done|]. simpl. by rewrite lookup_insert_eq. Qed.

(** What [os.mkdir] does, by outcome. *)
Lemma os_mkdir_outcome p w r w' :
  os_mkdir p w = (r, w') →
  (r = Ok tt ∧ path_exists (fs w) p = false ∧ is_dir (fs w) (removelast p) = true
     ∧ w' = set_fs (<[p := Dir]> (fs w)) w)
  ∨ (∃ e, r = Raise (OSError e p) ∧ w' = w ∧ (e = EEXIST ↔ path_exists (fs w) p = true)).
Proof.
  unfold os_mkdir. intros Hrun.
  destruct (path_exists (fs w) p) eqn:Hex.
  { right. exists EEXIST. by simplify_eq. }
  destruct (is_dir (fs w) (removelast p)) eqn:Hpar; simpl in Hrun.
  2:{ right. exists ENOENT. simplify_eq. split_and!; [done..|]. split; congruence. }
  case_bool_decide.
  - right. exists EACCES. simplify_eq. split_and!; [done..|]. split; congruence.
  - left. by simplify_eq.
Qed.

Lemma removelast_snoc {A} (l : list A) x : removelast (l ++ [x]) = l.
Proof. apply removelast_last. Qed.

(** [os.makedirs] never disturbs what is stored already. *)
Lemma makedirs_rev_keeps rp : ∀ w r w' q n,
  makedirs_rev rp w = (r, w') → lookup_node (fs w) q = Some n →
  lookup_node (fs w') q = Some n.
Proof.
  assert (Hmk : ∀ p w r w' q n, os_mkdir p w = (r, w') →
            lookup_node (fs w) q = Some n → lookup_node (fs w') q = Some n).
  { intros p w r w' q n Hrun Hq.
    destruct (os_mkdir_outcome _ _ _ _ Hrun) as [(_ & Hex & _ & ->)|(e & _ & -> & _)]; [|done].
    simpl. rewrite lookup_node_insert_ne; [done|].
    intros ->. unfold path_exists in Hex. by rewrite Hq in Hex. }
  induction rp as [|c rp IH]; intros w r w' q n Hrun Hq; simpl in Hrun.
  { eauto. }
  unfold bind, os_path_exists in Hrun; simpl in Hrun.
  destruct (path_exists (fs w) (rev rp)).
  { unfold ret in Hrun. eauto. }
  unfold ignore_file_exists in Hrun.
  destruct (makedirs_rev rp w) as [r1 w1] eqn:Hrec.
  specialize (IH _ _ _ _ _ Hrec Hq).
  destruct r1 as [[]|[[] ?| | | | |]]; simplify_eq; eauto.
Qed.

(** A call of [os.makedirs] that returns, or that fails with "file
    exists", leaves the path and its parent in the store; the failure
    comes from the final [os.mkdir] and names the path itself. *)
Lemma makedirs_rev_outcome rp : ∀ w r w',
  makedirs_rev rp w = (r, w') →
  (r = Ok tt → is_dir (fs w') (rev rp) = true) ∧
  ((r = Ok tt ∨ ∃ q, r = Raise (OSError EEXIST q)) →
     path_exists (fs w') (rev rp) = true ∧
     path_exists (fs w') (removelast (rev rp)) = true).
Proof.
  assert (Hmk : ∀ p w r w', os_mkdir p w = (r, w') →
            path_exists (fs w) (removelast p) = true →
            (r = Ok tt → is_dir (fs w') p = true) ∧
            ((r = Ok tt ∨ ∃ q, r = Raise (OSError EEXIST q)) →
               path_exists (fs w') p = true ∧
               path_exists (fs w') (removelast p) = true)).
  { intros p w r w' Hrun Hpar.
    destruct (os_mkdir_outcome _ _ _ _ Hrun) as [(-> & Hex & Hd & ->)|(e & -> & -> & He)].
    - assert (Hp : is_dir (<[p:=Dir]> (fs w)) p = true).
      { unfold is_dir. by rewrite lookup_node_insert_dir. }
      simpl. split; [done|]. intros _. split; [by apply path_exists_is_dir|].
      destruct (decide (removelast p = p)) as [->|Hne]; [by apply path_exists_is_dir|].
      unfold path_exists. rewrite lookup_node_insert_ne; [|done]. apply Hpar.
    - split; [done|]. intros [?|[q Hq]]; [done|]. simplify_eq.
      split; [by apply He|done]. }
  induction rp as [|c rp IH]; intros w r w' Hrun; simpl in Hrun.
  { eapply Hmk; [done|done]. }
  unfold bind, os_path_exists in Hrun; simpl in Hrun.
  replace (rev (c :: rp)) with (rev rp ++ [c]) in * by done.
  rewrite removelast_snoc.
  destruct (path_exists (fs w) (rev rp)) eqn:Hhead.
  { unfold ret in Hrun.
    pose proof (Hmk _ _ _ _ Hrun) as Hm. rewrite removelast_snoc in Hm. by apply Hm. }
  unfold ignore_file_exists in Hrun.
  destruct (makedirs_rev rp w) as [r1 w1] eqn:Hrec.
  destruct (IH _ _ _ Hrec) as [_ IH2].
  assert (Hgo : ∀ w2, path_exists (fs w2) (rev rp) = true →
            os_mkdir (rev rp ++ [c]) w2 = (r, w') →
            (r = Ok tt → is_dir (fs w') (rev rp ++ [c]) = true) ∧
            ((r = Ok tt ∨ ∃ q, r = Raise (OSError EEXIST q)) →
               path_exists (fs w') (rev rp ++ [c]) = true ∧
               path_exists (fs w') (rev rp) = true)).
  { intros w2 Hw2 Hrun2. pose proof (Hmk _ _ _ _ Hrun2) as Hm.
    rewrite removelast_snoc in Hm. by apply Hm. }
  destruct r1 as [[]|[[] q| | | | |]]; simplify_eq;
    try (split; [done|]; intros [?|[? ?]]; done).
  - apply (Hgo w1); [|done]. apply IH2. by left.
  - apply (Hgo w1); [|done]. apply IH2. right. by exists q.
Qed.

Lemma os_makedirs_outcome p w r w' :
  os_makedirs p w = (r, w') →
  (r = Ok tt → is_dir (fs w') p = true) ∧
  ((r = Ok tt ∨ ∃ q, r = Raise (OSError EEXIST q)) →
     path_exists (fs w') p = true ∧ path_exists (fs w') (removelast p) = true).
Proof.
  unfold os_makedirs. intros Hrun.
  pose proof (makedirs_rev_outcome _ _ _ _ Hrun) as Ho. by rewrite rev_involutive in Ho.
Qed.



(** On a path that is not there yet, with a directory above it that
    accepts new entries: both calls return, the first one creating the
    missing directories. *)
Example mkdir_p_twice :
  let p := ["C:"; "build"; "a"; "b"] in
  ∃ w1, mkdir_p p demo_world = (Ok tt, w1)
        ∧ path_exists (fs demo_world) ["C:"; "build"; "a"] = false
        ∧ is_dir (fs w1) ["C:"; "build"; "a"] = true
        ∧ is_dir (fs w1) p = true
        ∧ mkdir_p p w1 = (Ok tt, w1).
Proof. eexists. split; [vm_compute; reflexivity|]. by vm_compute. Qed.

(** A regular file in the way, and a parent that refuses new entries. *)
Example mkdir_p_failures :
  let w := set_fs (<[ ["C:"; "build"; "log"] := File "text" ]> (fs demo_world))
                  demo_world in
  let locked := mkWorld (environ w) (cwd w) (fs w) {[ ["C:"; "work"] ]} [] [] in
  (mkdir_p ["C:"; "build"; "log"] w).1 = Raise (OSError EEXIST ["C:"; "build"; "log"])
  ∧ (mkdir_p ["C:"; "build"; "log"; "x"] w).1
    = Raise (OSError ENOENT ["C:"; "build"; "log"; "x"])
  ∧ (mkdir_p ["C:"; "work"; "x"] locked).1 = Raise (OSError EACCES ["C:"; "work"; "x"]).
Proof. by vm_compute. Qed.

(** ** Scoped environment mutation *)

Lemma for_each_environ_set (l : list (string * string)) : ∀ w,
  NoDup l.*1 →
  for_each l (λ kv, environ_set kv.1 kv.2) w
  = (Ok tt, set_environ (list_to_map l ∪ environ w) w).
Proof.
  induction l as [|[k v] l IH]; intros w Hnd; simpl.
  - unfold ret. rewrite (left_id_L ∅ (∪)). by destruct w.
  - apply NoDup_cons in Hnd as [Hk Hnd].
    unfold bind, environ_set, modify. rewrite IH by done. simpl.
    unfold set_environ. simpl. f_equal. f_equal.
    rewrite <-insert_union_l. symmetry. apply insert_union_r.
    by apply not_elem_of_list_to_map_1.
Qed.

(** The code after the [yield] reinstates the snapshot, whatever the
    environment holds at that point. *)
Lemma push_env_after_run saved w :
  push_env_after saved w = (Ok tt, set_environ saved w).
Proof.
  unfold push_env_after, bind, environ_clear, modify.
  rewrite for_each_environ_set by apply NoDup_fst_map_to_list.
  simpl. unfold set_environ. simpl.
  by rewrite list_to_map_to_list, (right_id_L ∅ (∪)).
Qed.

Lemma for_each_kwargs kwargs : ∀ w,
  for_each kwargs (λ kv : string * option string,
    match kv.2 with
    | Some value => environ_set kv.1 value
    | None =>
        let! present := environ_contains kv.1 in
        if present then environ_del kv.1 else ret tt
    end) w
  = (Ok tt, set_environ (apply_kwargs kwargs (environ w)) w).
Proof.
  induction kwargs as [|[var [value|]] kwargs IH]; intros w; simpl.
  - unfold ret. by destruct w.
  - unfold bind, environ_set, modify. by rewrite IH.
  - unfold bind, environ_contains. case_bool_decide as Hin.
    + unfold environ_del, modify. by rewrite IH.
    + unfold ret. rewrite IH. unfold set_environ. do 3 f_equal.
      rewrite delete_id; [done|]. by apply eq_None_not_Some.
Qed.

(** The code up to the [yield] returns the snapshot and applies the
    requested changes, touching nothing but the environment. *)
Lemma push_env_before_run kwargs w :
  push_env_before kwargs w
  = (Ok (environ w), set_environ (apply_kwargs kwargs (environ w)) w).
Proof.
  unfold push_env_before, bind, get. by rewrite for_each_kwargs.
Qed.

(** When the wrapped operation returns, the scope goes on past the
    [yield] and reinstates the snapshot. *)
Lemma push_env_return {A} (kwargs : list (string * option string))
    (body : M A) (w w2 : World) (a : A) :
  body (set_environ (apply_kwargs kwargs (environ w)) w) = (Ok a, w2) →
  push_env kwargs body w = (Ok a, set_environ (environ w) w2).
Proof.
  intros Hbody. unfold push_env, with_generator, bind.
  by rewrite push_env_before_run, Hbody, push_env_after_run.
Qed.

(** C4. When the wrapped operation returns, the environment after the
    scope is the snapshot taken at entry, variable for variable,
    whatever the operation did to the environment; the rest of the
    state is as the operation left it. *)
Theorem push_env_restores_on_return {A} (kwargs : list (string * option string))
    (body : M A) (w w2 : World) (a : A) :
  body (set_environ (apply_kwargs kwargs (environ w)) w) = (Ok a, w2) →
  push_env kwargs body w = (Ok a, set_environ (environ w) w2)
  ∧ ∀ var, environ (push_env kwargs body w).2 !! var = environ w !! var.
Proof.
  intros Hbody. by rewrite (push_env_return _ _ _ _ _ Hbody).
Qed.

(** When the wrapped operation raises, the scope ends at the [yield]:
    nothing is reinstated. *)
Lemma push_env_raise {A} (kwargs : list (string * option string))
    (body : M A) (w w2 : World) (e : exn) :
  body (set_environ (apply_kwargs kwargs (environ w)) w) = (Raise e, w2) →
  push_env kwargs body w = (Raise e, w2).
Proof.
  intros Hbody. unfold push_env, with_generator, bind.
  by rewrite push_env_before_run, Hbody.
Qed.

Lemma push_env_restores_on_return_witness :
  let kwargs := [("PATH", Some "C:/venv/Scripts:C:/Windows"); ("HOME", None)] in
  let body := environ_set "TMP" "x" >> environ_set "PATH" "junk" in
  let w1 := set_environ (apply_kwargs kwargs (environ demo_world)) demo_world in
  push_env kwargs body demo_world
    = (Ok tt, set_environ (environ demo_world) (body w1).2)
  ∧ ∀ var, environ (push_env kwargs body demo_world).2 !! var
           = environ demo_world !! var.
Proof.
  intros kwargs body w1.
  apply (push_env_restores_on_return kwargs body demo_world (body w1).2 tt).
  reflexivity.
Defined.

(** C1 (as the code behaves). With [PATH] set to [C:/Windows], a scope
    that requests another [PATH] and whose wrapped operation raises
    ends with the exception and with the requested [PATH] still in
    place: the snapshot is not reinstated. *)
Theorem push_env_not_restored_on_raise :
  let w := demo_world in
  let out := push_env [("PATH", Some "C:/venv/Scripts")]
                      (raise (Exception "boom") : M unit) w in
  out.1 = Raise (Exception "boom")
  ∧ environ w !! "PATH" = Some "C:/Windows"
  ∧ environ out.2 !! "PATH" = Some "C:/venv/Scripts".
Proof.
  intros w out.
  assert (Hrun : out = (Raise (Exception "boom"),
                        set_environ (<["PATH" := "C:/venv/Scripts"]> (environ w)) w)).
  { by apply push_env_raise. }
  rewrite Hrun. split_and!; reflexivity.
Qed.

(** ** Scoped working-directory change *)

Lemma os_mkdir_cwd p w r w' : os_mkdir p w = (r, w') → cwd w' = cwd w.
Proof.
  intros Hrun.
  by destruct (os_mkdir_outcome _ _ _ _ Hrun) as [(_ & _ & _ & ->)|(e & _ & -> & _)].
Qed.

Lemma makedirs_rev_cwd rp : ∀ w r w', makedirs_rev rp w = (r, w') → cwd w' = cwd w.
Proof.
  induction rp as [|c rp IH]; intros w r w' Hrun; simpl in Hrun.
  { by eapply os_mkdir_cwd. }
  unfold bind, os_path_exists in Hrun; simpl in Hrun.
  destruct (path_exists (fs w) (rev rp)).
  { unfold ret in Hrun. by eapply os_mkdir_cwd. }
  unfold ignore_file_exists in Hrun.
  destruct (makedirs_rev rp w) as [r1 w1] eqn:Hrec.
  rewrite <-(IH _ _ _ Hrec).
  destruct r1 as [[]|[[] q| | | | |]]; simplify_eq; try done;
    by eapply os_mkdir_cwd.
Qed.

Lemma mkdir_p_cwd p w r w' : mkdir_p p w = (r, w') → cwd w' = cwd w.
Proof.
  unfold mkdir_p, os_makedirs. intros Hrun.
  destruct (makedirs_rev (rev p) w) as [r1 w1] eqn:Hmk.
  rewrite <-(makedirs_rev_cwd _ _ _ _ Hmk).
  destruct r1 as [[]|[e q| | | | |]]; simplify_eq; try done.
  by destruct (bool_decide (e = EEXIST) && is_dir (fs w1) p); simplify_eq.
Qed.

(** [os.chdir] either moves to the directory or raises and moves nowhere. *)
Lemma os_chdir_outcome p w :
  (is_dir (fs w) p = true ∧ os_chdir p w = (Ok tt, set_cwd p w))
  ∨ (is_dir (fs w) p = false ∧ ∃ e, os_chdir p w = (Raise (OSError e p), w)).
Proof.
  unfold os_chdir, is_dir. destruct (lookup_node (fs w) p) as [[]|]; eauto.
Qed.

(** [__enter__] records the working directory; when it raises, the
    process has not moved. *)
Lemma push_dir_enter_outcome directory make_directory w r w' :
  push_dir_enter (push_dir_init directory make_directory) w = (r, w') →
  (r = Ok (PushDir directory make_directory (Some (cwd w))))
  ∨ (∃ e, r = Raise e) ∧ cwd w' = cwd w.
Proof.
  unfold push_dir_enter, push_dir_init, bind, os_getcwd. simpl.
  destruct directory as [d|]; [|unfold ret; intros; simplify_eq; by left].
  destruct (if make_directory then mkdir_p d w else ret tt w) as [r1 w1] eqn:Hmk.
  assert (Hc : cwd w1 = cwd w).
  { destruct make_directory; [by eapply mkdir_p_cwd|unfold ret in Hmk; by simplify_eq]. }
  intros Hrun.
  assert (Hrun' : match r1 with
                  | Ok _ => (os_chdir d >> ret (PushDir (Some d) make_directory (Some (cwd w)))) w1
                  | Raise e => (Raise e, w1)
                  end = (r, w')).
  { rewrite <-Hrun. unfold bind. destruct make_directory; by rewrite Hmk. }
  clear Hrun. destruct r1 as [[]|e]; [|simplify_eq; right; eauto].
  unfold bind, ret in Hrun'.
  destruct (os_chdir_outcome d w1) as [[_ Hcd]|[_ [e Hcd]]]; rewrite Hcd in Hrun';
    simplify_eq; [by left|right; eauto].
Qed.

(** C3 (amended). [__enter__] records the working directory, and when
    it raises the process has not moved.  Once it has returned, the
    wrapped operation runs and [__exit__] follows on every exit path,
    whether the operation returned or raised and whether or not the
    target was created on entry: when the recorded directory is still
    a directory, the scope ends as the operation did with the process
    back in the recorded directory; otherwise the restoring [os.chdir]
    raises its [OSError] out of the scope, and the process stays where
    the wrapped operation left it. *)
Theorem push_dir_restores_cwd {A} (directory : option path) (make_directory : bool)
    (body : M A) (w : World) :
  let out := push_dir directory make_directory body w in
  match push_dir_enter (push_dir_init directory make_directory) w with
  | (Raise e, w0) => out = (Raise e, w0) ∧ cwd out.2 = cwd w
  | (Ok _, w0) =>
      let after := body w0 in
      if is_dir (fs after.2) (cwd w)
      then out = (after.1, set_cwd (cwd w) after.2) ∧ cwd out.2 = cwd w
      else (∃ e, out = (Raise (OSError e (cwd w)), after.2))
           ∧ cwd out.2 = cwd after.2
  end.
Proof.
  intros out. subst out. unfold push_dir, with_object, bind.
  destruct (push_dir_enter (push_dir_init directory make_directory) w) as [r0 w0] eqn:Hin.
  destruct (push_dir_enter_outcome _ _ _ _ _ Hin) as [->|[[e ->] Hc]]; [|done].
  unfold try_finally, push_dir_exit. simpl.
  destruct (body w0) as [r1 w1]. simpl.
  destruct (os_chdir_outcome (cwd w) w1) as [[Hd Hcd]|[Hgone [e Hcd]]]; rewrite Hcd.
  - by rewrite Hd.
  - rewrite Hgone. split; [by exists e|done].
Qed.

(** C3 (as stated) fails: a wrapped operation that removes the
    directory the process came from leaves the process in the target. *)
Lemma push_dir_cwd_not_restored :
  cwd (push_dir (Some ["C:"; "build"]) false
                (shutil_rmtree ["C:"; "work"]) demo_world).2
  ≠ cwd demo_world.
Proof. vm_compute. discriminate. Qed.

(** ** Processes started by a computation *)

Lemma keeps_extends {A} (m : M A) : keeps_calls m → extends_calls m.
Proof. intros Hm w r w' Hrun. by rewrite (Hm _ _ _ Hrun). Qed.

Lemma keeps_ret {A} (a : A) : keeps_calls (ret a).
Proof. intros w r w' Hrun. unfold ret in Hrun. by simplify_eq. Qed.

Lemma keeps_raise {A} (e : exn) : keeps_calls (raise e : M A).
Proof. intros w r w' Hrun. unfold raise in Hrun. by simplify_eq. Qed.

Lemma keeps_bind {A B} (m : M A) (k : A → M B) :
  keeps_calls m → (∀ a, keeps_calls (k a)) → keeps_calls (bind m k).
Proof.
  intros Hm Hk w r w' Hrun. unfold bind in Hrun.
  destruct (m w) as [[a|e] w1] eqn:Hmw.
  - rewrite (Hk _ _ _ _ Hrun). eauto.
  - simplify_eq. eauto.
Qed.

Lemma extends_bind {A B} (m : M A) (k : A → M B) :
  extends_calls m → (∀ a, extends_calls (k a)) → extends_calls (bind m k).
Proof.
  intros Hm Hk w r w' Hrun. unfold bind in Hrun.
  destruct (m w) as [[a|e] w1] eqn:Hmw.
  - etrans; [by eapply Hm|by eapply Hk].
  - simplify_eq. eauto.
Qed.

Lemma keeps_for_each {A} (l : list A) (body : A → M unit) :
  (∀ x, keeps_calls (body x)) → keeps_calls (for_each l body).
Proof.
  intros Hb. induction l as [|x l IH]; simpl.
  - apply keeps_ret.
  - apply keeps_bind; [done|]. by intros _.
Qed.

Lemma extends_for_each {A} (l : list A) (body : A → M unit) :
  (∀ x, extends_calls (body x)) → extends_calls (for_each l body).
Proof.
  intros Hb. induction l as [|x l IH]; simpl.
  - apply keeps_extends, keeps_ret.
  - apply extends_bind; [done|]. by intros _.
Qed.

Lemma extends_try_finally {A} (body : M A) (fin : M unit) :
  extends_calls body → extends_calls fin → extends_calls (try_finally body fin).
Proof.
  intros Hb Hf w r w' Hrun. unfold try_finally in Hrun.
  destruct (body w) as [r1 w1] eqn:Hbw. destruct (fin w1) as [[[]|e] w2] eqn:Hfw;
    simplify_eq; (etrans; [by eapply Hb|by eapply Hf]).
Qed.

Lemma keeps_modify (f : World → World) :
  (∀ w, calls (f w) = calls w) → keeps_calls (modify f).
Proof. intros Hf w r w' Hrun. unfold modify in Hrun. by simplify_eq. Qed.

Lemma keeps_pure {A} (f : World → res A) : keeps_calls (λ w, (f w, w)).
Proof. intros w r w' Hrun. by simplify_eq. Qed.

Lemma keeps_print line : keeps_calls (print line).
Proof. by apply keeps_modify. Qed.

Lemma keeps_write_file p content : keeps_calls (write_file p content).
Proof. by apply keeps_modify. Qed.

Lemma keeps_environ_set var value : keeps_calls (environ_set var value).
Proof. by apply keeps_modify. Qed.

Lemma keeps_os_remove p : keeps_calls (os_remove p).
Proof.
  intros w r w' Hrun. unfold os_remove in Hrun.
  by destruct (lookup_node (fs w) p) as [[]|]; simplify_eq.
Qed.

Lemma keeps_shutil_rmtree p : keeps_calls (shutil_rmtree p).
Proof.
  intros w r w' Hrun. unfold shutil_rmtree in Hrun.
  by destruct (lookup_node (fs w) p) as [[]|]; simplify_eq.
Qed.

Lemma keeps_os_chdir p : keeps_calls (os_chdir p).
Proof.
  intros w r w' Hrun. unfold os_chdir in Hrun.
  by destruct (lookup_node (fs w) p) as [[]|]; simplify_eq.
Qed.

Lemma keeps_os_mkdir p : keeps_calls (os_mkdir p).
Proof.
  intros w r w' Hrun.
  by destruct (os_mkdir_outcome _ _ _ _ Hrun) as [(_ & _ & _ & ->)|(e & _ & -> & _)].
Qed.

Lemma keeps_makedirs_rev rp : keeps_calls (makedirs_rev rp).
Proof.
  induction rp as [|c rp IH]; simpl; [apply keeps_os_mkdir|].
  apply keeps_bind; [apply (keeps_pure (λ w, Ok (path_exists (fs w) (rev rp))))|].
  intros b. apply keeps_bind; [|intros _; apply keeps_os_mkdir].
  destruct b; [apply keeps_ret|].
  intros w r w' Hrun. unfold ignore_file_exists in Hrun.
  destruct (makedirs_rev rp w) as [r1 w1] eqn:Hrec.
  rewrite <-(IH _ _ _ Hrec).
  by destruct r1 as [[]|[[] q| | | | |]]; simplify_eq.
Qed.

Lemma keeps_mkdir_p p : keeps_calls (mkdir_p p).
Proof.
  intros w r w' Hrun. unfold mkdir_p, os_makedirs in Hrun.
  destruct (makedirs_rev (rev p) w) as [r1 w1] eqn:Hmk.
  rewrite <-(keeps_makedirs_rev _ _ _ _ Hmk).
  destruct r1 as [[]|[e q| | | | |]]; simplify_eq; try done.
  by destruct (bool_decide (e = EEXIST) && is_dir (fs w1) p); simplify_eq.
Qed.

Lemma keeps_push_env_after saved : keeps_calls (push_env_after saved).
Proof. intros w r w' Hrun. rewrite push_env_after_run in Hrun. by simplify_eq. Qed.

Lemma keeps_push_env_before kwargs : keeps_calls (push_env_before kwargs).
Proof. intros w r w' Hrun. rewrite push_env_before_run in Hrun. by simplify_eq. Qed.

Lemma extends_push_env {A} kwargs (body : M A) :
  extends_calls body → extends_calls (push_env kwargs body).
Proof.
  intros Hb. unfold push_env, with_generator.
  apply extends_bind; [apply keeps_extends, keeps_push_env_before|]. intros saved.
  apply extends_bind; [done|]. intros a.
  apply keeps_extends, keeps_bind; [apply keeps_push_env_after|].
  intros _. apply keeps_ret.
Qed.

Lemma keeps_push_dir_enter self : keeps_calls (push_dir_enter self).
Proof.
  unfold push_dir_enter.
  apply keeps_bind; [apply (keeps_pure (λ w, Ok (cwd w)))|]. intros c. simpl.
  destruct (directory self) as [d|]; [|apply keeps_ret].
  apply keeps_bind; [destruct (make_directory self); [apply keeps_mkdir_p|apply keeps_ret]|].
  intros _. apply keeps_bind; [apply keeps_os_chdir|]. intros _. apply keeps_ret.
Qed.

Lemma extends_push_dir {A} directory make_directory (body : M A) :
  extends_calls body → extends_calls (push_dir directory make_directory body).
Proof.
  intros Hb. unfold push_dir, with_object.
  apply extends_bind; [apply keeps_extends, keeps_push_dir_enter|]. intros self.
  apply extends_try_finally; [done|]. apply keeps_extends.
  unfold push_dir_exit. destruct (old_cwd self); [apply keeps_os_chdir|apply keeps_raise].
Qed.

Lemma keeps_os_path_exists p : keeps_calls (os_path_exists p).
Proof. apply (keeps_pure (λ w, Ok (path_exists (fs w) p))). Qed.

Lemma keeps_os_walk top : keeps_calls (os_walk top).
Proof. intros w r w' Hrun. unfold os_walk in Hrun. by simplify_eq. Qed.

Lemma keeps_open_read p : keeps_calls (open_read p).
Proof.
  intros w r w' Hrun. unfold open_read in Hrun.
  by destruct (lookup_node (fs w) p) as [[]|]; simplify_eq.
Qed.

Lemma keeps_get : keeps_calls get.
Proof. apply (keeps_pure (λ w, Ok w)). Qed.

Lemma keeps_environ_get var : keeps_calls (environ_get var).
Proof.
  intros w r w' Hrun. unfold environ_get in Hrun.
  by destruct (environ w !! var); simplify_eq.
Qed.

Lemma calls_push_env {A} kwargs (body : M A) w :
  calls (push_env kwargs body w).2
  = calls (body (set_environ (apply_kwargs kwargs (environ w)) w)).2.
Proof.
  destruct (body (set_environ (apply_kwargs kwargs (environ w)) w))
    as [[a|e] w2] eqn:Hbody.
  - by rewrite (push_env_return _ _ _ _ _ Hbody).
  - by rewrite (push_env_raise _ _ _ _ _ Hbody).
Qed.

(** One step of a proof that a block of the script only adds to the
    record of processes: by the shape of the block. *)
Ltac calls_step :=
  match goal with
  | |- ∀ _, _ => intro
  | |- extends_calls (bind _ _) => apply extends_bind
  | |- extends_calls (for_each _ _) => apply extends_for_each
  | |- extends_calls (push_env _ _) => apply extends_push_env
  | |- extends_calls (push_dir _ _ _) => apply extends_push_dir
  | |- extends_calls (try_finally _ _) => apply extends_try_finally
  | |- extends_calls (if ?b then _ else _) => destruct b
  | |- extends_calls (match ?x with _ => _ end) => destruct x
  | |- keeps_calls (bind _ _) => apply keeps_bind
  | |- keeps_calls (for_each _ _) => apply keeps_for_each
  | |- keeps_calls (if ?b then _ else _) => destruct b
  | |- keeps_calls (match ?x with _ => _ end) => destruct x
  | |- keeps_calls (ret _) => apply keeps_ret
  | |- keeps_calls (raise _) => apply keeps_raise
  | |- keeps_calls get => apply keeps_get
  | |- keeps_calls (print _) => apply keeps_print
  | |- keeps_calls (write_file _ _) => apply keeps_write_file
  | |- keeps_calls (os_remove _) => apply keeps_os_remove
  | |- keeps_calls (shutil_rmtree _) => apply keeps_shutil_rmtree
  | |- keeps_calls (os_path_exists _) => apply keeps_os_path_exists
  | |- keeps_calls (os_walk _) => apply keeps_os_walk
  | |- keeps_calls (open_read _) => apply keeps_open_read
  | |- keeps_calls (environ_get _) => apply keeps_environ_get
  end.

Section ScriptProperties.
Context `{Platform}.

Lemma calls_started args w :
  calls (started args w) = calls w ++ [Call args (environ w) (cwd w)].
Proof. done. Qed.

Lemma extends_check_call args : extends_calls (check_call args).
Proof.
  intros w r w' Hrun. unfold check_call, bind, run_process in Hrun. simpl in Hrun.
  assert (w' = started args w) as ->.
  { destruct (spawn args (environ w) (cwd w) (fs w)).1.1;
      unfold ret, raise in Hrun; by simplify_eq. }
  rewrite calls_started. by apply prefix_app_r.
Qed.

Lemma extends_check_output args : extends_calls (check_output args).
Proof.
  intros w r w' Hrun. unfold check_output, bind, run_process in Hrun. simpl in Hrun.
  assert (w' = started args w) as ->.
  { destruct (spawn args (environ w) (cwd w) (fs w)).1.1;
      unfold ret, raise in Hrun; by simplify_eq. }
  rewrite calls_started. by apply prefix_app_r.
Qed.

Ltac calls_script :=
  repeat first
    [ calls_step
    | apply extends_check_call
    | apply extends_check_output
    | apply keeps_extends ].

Lemma keeps_remove_unnecessary_files build_path :
  keeps_calls (remove_unnecessary_files build_path).
Proof. unfold remove_unnecessary_files. cbv zeta. calls_script. Qed.

Lemma extends_build_single_wheel pe pi bp spc ne pl sp bt :
  extends_calls (build_single_wheel pe pi bp spc ne pl sp bt).
Proof. unfold build_single_wheel. calls_script. Qed.

Lemma extends_query_generator_env pe : extends_calls (query_generator_env pe).
Proof. unfold query_generator_env. calls_script. Qed.

Lemma extends_build_itk_python pe pi bp ne pl sp bt build_env :
  extends_calls (build_itk_python pe pi bp ne pl sp bt build_env).
Proof. unfold build_itk_python. cbv zeta. calls_script. Qed.

Lemma extends_build_itk_python_with pe pi bp ne pl sp bt build_env :
  extends_calls (build_itk_python_with pe pi bp ne pl sp bt build_env).
Proof.
  unfold build_itk_python_with.
  destruct build_env as [members|].
  - destruct (str_members members) as [kwargs []].
    + apply extends_build_itk_python.
    + apply extends_push_dir, keeps_extends, keeps_bind;
        [apply keeps_push_env_before|intros _; apply keeps_raise].
  - apply extends_push_dir, keeps_extends, keeps_raise.
Qed.

Lemma extends_build_named_wheel pe pi bp spc pl sp bt wheel_name :
  extends_calls (build_named_wheel pe pi bp spc pl sp bt wheel_name).
Proof. unfold build_named_wheel. calls_script. Qed.

Lemma extends_build_named_wheels pe pi bp spc pl sp bt :
  extends_calls (build_named_wheels pe pi bp spc pl sp bt).
Proof.
  unfold build_named_wheels. cbv zeta.
  apply extends_bind; [apply keeps_extends, keeps_open_read|]. intros content.
  apply extends_for_each. intros wheel_name. apply extends_build_named_wheel.
Qed.

Lemma extends_build_multiple_wheels pe pi bp spc ne pl sp bt :
  extends_calls (build_multiple_wheels pe pi bp spc ne pl sp bt).
Proof.
  unfold build_multiple_wheels.
  repeat (apply extends_bind; [apply keeps_extends, keeps_print|]; intros _).
  apply extends_bind; [apply extends_query_generator_env|]. intros build_env.
  apply extends_bind; [apply extends_build_itk_python_with|]. intros _.
  apply extends_build_named_wheels.
Qed.

(** ** Per-version environment preparation *)

(** C6. When the interpreter root [C:/Python<version>] does not exist,
    [prepare_build_env] raises [FileNotFoundError] with its message and
    leaves the whole state as it found it: nothing is printed, no
    process is started, the file system is untouched. *)
Theorem prepare_build_env_missing_root (python_version : string) (w : World) :
  path_exists (fs w) ["C:"; "Python" +:+ python_version] = false →
  prepare_build_env python_version w
  = (Raise (FileNotFoundError
              ("Aborting. python_dir ["
               +:+ path_str ["C:"; "Python" +:+ python_version]
               +:+ "] does not exist.")), w).
Proof.
  intros Hmiss. unfold prepare_build_env, bind, os_path_exists.
  by rewrite Hmiss.
Qed.

(** ** The generator query *)

Lemma os_remove_no_file p w : is_file (fs (os_remove p w).2) p = false.
Proof.
  unfold os_remove, is_file.
  destruct (lookup_node (fs w) p) as [[|content]|] eqn:Hl; simpl; try by rewrite Hl.
  destruct p; [done|]. simpl. by rewrite lookup_delete_eq.
Qed.

Lemma try_finally_remove_no_file {A} (body : M A) p w :
  is_file (fs (try_finally body (os_remove p) w).2) p = false.
Proof.
  unfold try_finally. destruct (body w) as [r1 w1].
  pose proof (os_remove_no_file p w1) as Hgone.
  by destruct (os_remove p w1) as [[[]|e] w2].
Qed.

(** C8. Whatever the helper run and the parsing of its output do
    (return or raise, and whatever the helper does to the file
    system), no regular file is left under the temporary name once
    the [try ... finally] statement is over. *)
Theorem query_generator_env_removes_helper (python_executable : path) (w : World) :
  is_file (fs (query_generator_env python_executable w).2) (temp_name (fs w)) = false.
Proof.
  unfold query_generator_env. unfold bind at 1. unfold get.
  apply try_finally_remove_no_file.
Qed.

(** ** The per-version build *)

Lemma check_call_run args w :
  check_call args w
  = (if (spawn args (environ w) (cwd w) (fs w)).1.1
     then Ok tt else Raise (CalledProcessError args), started args w).
Proof.
  unfold check_call, bind, run_process. simpl.
  by destruct (spawn args (environ w) (cwd w) (fs w)).1.1.
Qed.

(** The part of [build_wheel] that follows the installation of the
    dependencies only adds to the record of processes. *)
Lemma extends_build_wheel_after_install v sw pe pi ne pl :
  extends_calls (
    let build_type := "Release" in
    let source_path := path_str STANDALONE_DIR +:+ "/ITK-source" in
    let build_path := ["C:"; "P"; "IPP"; "ITK-win_" +:+ v] in
    let setup_py_configure :=
      os_path_join (os_path_join SCRIPT_DIR "..") "setup_py_configure.py" in
    let! present := os_path_exists build_path in
    (if present then shutil_rmtree build_path else ret tt) >>
    (if sw : bool
     then build_single_wheel pe pi build_path setup_py_configure ne pl source_path build_type
     else build_multiple_wheels pe pi build_path setup_py_configure ne pl source_path
            build_type) >>
    remove_unnecessary_files build_path).
Proof.
  cbv zeta.
  apply extends_bind; [apply keeps_extends, keeps_os_path_exists|]. intros present.
  apply extends_bind.
  { apply keeps_extends. destruct present; [apply keeps_shutil_rmtree|apply keeps_ret]. }
  intros _. apply extends_bind.
  { destruct sw; [apply extends_build_single_wheel|apply extends_build_multiple_wheels]. }
  intros _. apply keeps_extends, keeps_remove_unnecessary_files.
Qed.

(** C10. In both modes, with [PATH] set to [old] at entry, the first
    process [build_wheel] starts, the installation of the dependencies,
    runs with [PATH] equal to the Scripts directory of the isolated
    environment, the character [:], and [old]; the other variables are
    as at entry. *)
Theorem build_wheel_path_joined_with_colon (python_version : string)
    (single_wheel : bool) (w : World) (old : string) :
  environ w !! "PATH" = Some old →
  let venv_dir := os_path_join ROOT_DIR ("venv-" +:+ python_version) in
  let scripts := os_path_join venv_dir "Scripts" in
  ∃ rest,
    calls (build_wheel python_version single_wheel w).2
    = calls w
      ++ Call [path_str (os_path_join scripts "pip.exe"); "install"; "-r";
               path_str (os_path_join ROOT_DIR "requirements-dev.txt")]
              (<["PATH" := path_str scripts +:+ ":" +:+ old]> (environ w))
              (cwd w)
         :: rest.
Proof.
  intros Hpath venv_dir scripts.
  unfold build_wheel. cbv zeta.
  repeat (unfold bind at 1; unfold print at 1; unfold modify at 1).
  unfold bind at 1. unfold environ_get at 1. simpl environ. rewrite Hpath.
  rewrite calls_push_env. simpl apply_kwargs.
  unfold build_wheel_in_env. unfold bind at 1. rewrite check_call_run.
  match goal with |- context [started ?a ?v] => set (args := a); set (w1 := v) end.
  assert (Hc : calls (started args w1)
               = calls w ++ [Call args (<["PATH" := path_str scripts +:+ ":" +:+ old]>
                                         (environ w)) (cwd w)]) by done.
  destruct (spawn args (environ w1) (cwd w1) (fs w1)).1.1.
  - match goal with |- context [(?k (started args w1)).2] =>
      destruct (k (started args w1)) as [r2 w2] eqn:Hrest end.
    apply (extends_build_wheel_after_install python_version single_wheel) in Hrest.
    destruct Hrest as [rest Hrest]. simpl. rewrite Hrest, Hc.
    exists rest. by rewrite <-app_assoc.
  - exists []. exact Hc.
Qed.

Lemma bind_check_call_ok {A} args (k : unit → M A) w :
  (spawn args (environ w) (cwd w) (fs w)).1.1 = true →
  (let! u := check_call args in k u) w = k tt (started args w).
Proof. intros Hok. unfold bind. by rewrite check_call_run, Hok. Qed.

Lemma bind_print {A} line (k : unit → M A) w :
  (let! u := print line in k u) w = k tt (add_stdout line w).
Proof. done. Qed.

Lemma check_call_ok args w :
  (spawn args (environ w) (cwd w) (fs w)).1.1 = true →
  check_call args w = (Ok tt, started args w).
Proof. intros Hok. by rewrite check_call_run, Hok. Qed.

(** With every program exiting with status 0, the branch for a single
    wheel returns after starting its three processes, in order. *)
Lemma build_single_wheel_run pe pi bp spc ne pl sp bt w :
  (∀ args e c f, (spawn args e c f).1.1 = true) →
  ∃ w', build_single_wheel pe pi bp spc ne pl sp bt w = (Ok tt, w')
    ∧ map argv (calls w')
      = map argv (calls w)
        ++ [ [path_str pe; path_str spc; "itk"];
             [path_str pe; "setup.py"; "bdist_wheel";
              "--build-type"; bt; "-G"; "Ninja"; "--";
              "-DCMAKE_MAKE_PROGRAM:FILEPATH=" +:+ path_str ne;
              "-DITK_SOURCE_DIR:PATH=" +:+ sp;
              "-DITK_BINARY_DIR:PATH=" +:+ path_str bp;
              "-DPYTHON_EXECUTABLE:FILEPATH=" +:+ path_str pe;
              "-DPYTHON_INCLUDE_DIR:PATH=" +:+ path_str pi;
              "-DPYTHON_LIBRARY:FILEPATH=" +:+ pl];
             [path_str pe; "setup.py"; "clean"] ].
Proof.
  intros Hok. unfold build_single_wheel.
  rewrite !bind_print.
  rewrite bind_check_call_ok by apply Hok.
  rewrite bind_check_call_ok by apply Hok.
  rewrite check_call_ok by apply Hok.
  eexists. split; [done|].
  rewrite !calls_started. rewrite !map_app. simpl. by rewrite <-!app_assoc.
Qed.

Lemma shutil_rmtree_not_file p w :
  path_exists (fs w) p = true → is_file (fs w) p = false →
  ∃ w', shutil_rmtree p w = (Ok tt, w') ∧ calls w' = calls w.
Proof.
  unfold path_exists, is_file, shutil_rmtree.
  destruct (lookup_node (fs w) p) as [[]|]; try done. eauto.
Qed.

(** C9. In single-artifact mode, with [PATH] set, every program exiting
    with status 0 and no regular file in the way at the build path,
    [build_wheel] starts exactly four processes: the installation of
    the dependencies, one run of the configure script with the
    component name [itk], one [setup.py bdist_wheel] run, and one
    [setup.py clean] run, whatever the final removal of unnecessary
    files then does. *)
Theorem build_wheel_single_invocations (python_version : string) (w : World)
    (old : string) :
  let build_path := ["C:"; "P"; "IPP"; "ITK-win_" +:+ python_version] in
  environ w !! "PATH" = Some old →
  (∀ args e c f, (spawn args e c f).1.1 = true) →
  is_file (fs w) build_path = false →
  (∀ args e c f, is_file f build_path = false →
                 is_file (spawn args e c f).2 build_path = false) →
  let venv_dir := os_path_join ROOT_DIR ("venv-" +:+ python_version) in
  let scripts := os_path_join venv_dir "Scripts" in
  let python_executable := path_str (os_path_join scripts "python.exe") in
  map argv (calls (build_wheel python_version true w).2)
  = map argv (calls w)
    ++ [ [path_str (os_path_join scripts "pip.exe"); "install"; "-r";
          path_str (os_path_join ROOT_DIR "requirements-dev.txt")];
         [python_executable;
          path_str (os_path_join (os_path_join SCRIPT_DIR "..") "setup_py_configure.py");
          "itk"];
         [python_executable; "setup.py"; "bdist_wheel";
          "--build-type"; "Release"; "-G"; "Ninja"; "--";
          "-DCMAKE_MAKE_PROGRAM:FILEPATH="
            +:+ path_str (os_path_join
                            (os_path_join (os_path_join ROOT_DIR "venv-27-x64") "Scripts")
                            "ninja.exe");
          "-DITK_SOURCE_DIR:PATH=" +:+ (path_str STANDALONE_DIR +:+ "/ITK-source");
          "-DITK_BINARY_DIR:PATH=" +:+ path_str build_path;
          "-DPYTHON_EXECUTABLE:FILEPATH=" +:+ python_executable;
          "-DPYTHON_INCLUDE_DIR:PATH=" +:+ path_str (os_path_join venv_dir "Include");
          "-DPYTHON_LIBRARY:FILEPATH="
            +:+ ("C:/Python" +:+ python_version +:+ "/libs/python"
                 +:+ before_dash python_version +:+ ".lib")];
         [python_executable; "setup.py"; "clean"] ].
Proof.
  intros build_path Hpath Hok Hnofile Hkeep venv_dir scripts python_executable.
  unfold build_wheel. cbv zeta. rewrite !bind_print.
  unfold bind at 1. unfold environ_get at 1. simpl environ. rewrite Hpath.
  rewrite calls_push_env. simpl apply_kwargs.
  unfold build_wheel_in_env. cbv zeta.
  rewrite bind_check_call_ok by apply Hok.
  match goal with |- context [started ?a ?v] => set (args := a); set (w1 := v) end.
  assert (Hc1 : map argv (calls (started args w1)) = map argv (calls w) ++ [args]).
  { rewrite calls_started, map_app. done. }
  assert (Hf1 : is_file (fs (started args w1)) build_path = false).
  { apply Hkeep. exact Hnofile. }
  unfold bind at 1. unfold os_path_exists at 1.
  assert (Hstep : ∃ w3, (if path_exists (fs (started args w1)) build_path
                         then shutil_rmtree build_path else ret tt) (started args w1)
                        = (Ok tt, w3) ∧ calls w3 = calls (started args w1)).
  { destruct (path_exists (fs (started args w1)) build_path) eqn:Hex.
    - by apply shutil_rmtree_not_file.
    - unfold ret. eauto. }
  destruct Hstep as (w3 & Hstep & Hc3).
  fold build_path. unfold bind at 1. rewrite Hstep.
  unfold bind at 1.
  match goal with |- context [build_single_wheel ?pe ?pi ?bp ?spc ?ne ?pl ?sp ?bt w3] =>
    destruct (build_single_wheel_run pe pi bp spc ne pl sp bt w3 Hok) as (w4 & Hsingle & Hc4)
  end.
  rewrite Hsingle.
  match goal with |- context [remove_unnecessary_files ?bp w4] =>
    destruct (remove_unnecessary_files bp w4) as [r5 w5] eqn:Hclean
  end.
  apply keeps_remove_unnecessary_files in Hclean.
  cbn [snd]. rewrite Hclean, Hc4, Hc3, Hc1. by rewrite <-app_assoc.
Qed.

(** ** The wheels of the manifest *)

(** With every program exiting with status 0, one round of the loop
    returns after starting its three processes, in order, and leaves
    the manifest as the processes left it. *)
Lemma build_named_wheel_run pe pi bp spc pl sp bt wheel_name w :
  (∀ args e c f, (spawn args e c f).1.1 = true) →
  ∃ w', build_named_wheel pe pi bp spc pl sp bt wheel_name w = (Ok tt, w')
    ∧ map argv (calls w')
      = map argv (calls w) ++ named_wheel_commands pe pi bp spc pl sp bt wheel_name.
Proof.
  intros Hok. unfold build_named_wheel.
  rewrite bind_check_call_ok by apply Hok.
  rewrite bind_check_call_ok by apply Hok.
  rewrite check_call_ok by apply Hok.
  eexists. split; [done|].
  rewrite !calls_started. rewrite !map_app. simpl. by rewrite <-!app_assoc.
Qed.

Lemma for_each_build_named_wheel pe pi bp spc pl sp bt names : ∀ w,
  (∀ args e c f, (spawn args e c f).1.1 = true) →
  ∃ w', for_each names (build_named_wheel pe pi bp spc pl sp bt) w = (Ok tt, w')
    ∧ map argv (calls w')
      = map argv (calls w)
        ++ concat (map (named_wheel_commands pe pi bp spc pl sp bt) names).
Proof.
  induction names as [|name names IH]; intros w Hok; simpl.
  - exists w. unfold ret. by rewrite app_nil_r.
  - destruct (build_named_wheel_run pe pi bp spc pl sp bt name w Hok)
      as (w1 & Hrun & Hc1).
    destruct (IH w1 Hok) as (w2 & Hrest & Hc2).
    exists w2. unfold bind. rewrite Hrun. split; [done|].
    by rewrite Hc2, Hc1, <-app_assoc.
Qed.

(** What the loop over the manifest does: with every program exiting
    with status 0, it runs one round per character of the first line
    of the manifest, the line terminator included, each round with
    that one character as the component name. *)
Lemma build_named_wheels_per_character pe pi bp spc pl sp bt content w :
  (∀ args e c f, (spawn args e c f).1.1 = true) →
  lookup_node (fs w) (os_path_join (os_path_join SCRIPT_DIR "..") "WHEEL_NAMES.txt")
    = Some (File content) →
  ∃ w', build_named_wheels pe pi bp spc pl sp bt w = (Ok tt, w')
    ∧ map argv (calls w')
      = map argv (calls w)
        ++ concat (map (named_wheel_commands pe pi bp spc pl sp bt)
                       (iter_str (readline (universal_newlines content)))).
Proof.
  intros Hok Hfile. unfold build_named_wheels. cbv zeta.
  unfold bind at 1. unfold open_read at 1. rewrite Hfile.
  by apply for_each_build_named_wheel.
Qed.

End ScriptProperties.

(** C2 (as the code behaves). With a manifest that names one
    component, [itk], the build in multi-artifact mode runs the
    configure script four times, for the component names [i], [t], [k]
    and the line terminator: one round per character of the line that
    was read, not one per component name. *)
Theorem build_wheel_multi_iterates_characters :
  wheel_names_configured "C:/IPP/setup_py_configure.py"
    (calls (@build_wheel demo_platform "27-x64" false demo_world_manifest).2)
  = ["i"; "t"; "k"; newline].
Proof. vm_compute. reflexivity. Qed.

Lemma prepare_build_env_missing_root_witness :
  @prepare_build_env demo_platform "27-x64" demo_world
  = (Raise (FileNotFoundError
              "Aborting. python_dir [C:/Python27-x64] does not exist."),
     demo_world).
Proof.
  apply (@prepare_build_env_missing_root demo_platform "27-x64" demo_world).
  reflexivity.
Defined.

Lemma build_wheel_path_joined_with_colon_witness :
  ∃ rest,
    calls (@build_wheel demo_platform "27-x64" false demo_world).2
    = calls demo_world
      ++ Call ["C:/IPP/venv-27-x64/Scripts/pip.exe"; "install"; "-r";
               "C:/IPP/requirements-dev.txt"]
              (<["PATH" := "C:/IPP/venv-27-x64/Scripts:C:/Windows"]>
                 (environ demo_world))
              (cwd demo_world)
         :: rest.
Proof.
  apply (@build_wheel_path_joined_with_colon demo_platform "27-x64" false
           demo_world "C:/Windows").
  reflexivity.
Defined.

Lemma build_wheel_single_invocations_witness :
  map argv (calls (@build_wheel demo_platform "35-x64" true demo_world).2)
  = [ ["C:/IPP/venv-35-x64/Scripts/pip.exe"; "install"; "-r";
       "C:/IPP/requirements-dev.txt"];
      ["C:/IPP/venv-35-x64/Scripts/python.exe"; "C:/IPP/setup_py_configure.py"; "itk"];
      ["C:/IPP/venv-35-x64/Scripts/python.exe"; "setup.py"; "bdist_wheel";
       "--build-type"; "Release"; "-G"; "Ninja"; "--";
       "-DCMAKE_MAKE_PROGRAM:FILEPATH=C:/IPP/venv-27-x64/Scripts/ninja.exe";
       "-DITK_SOURCE_DIR:PATH=C:/IPP/standalone-build/ITK-source";
       "-DITK_BINARY_DIR:PATH=C:/P/IPP/ITK-win_35-x64";
       "-DPYTHON_EXECUTABLE:FILEPATH=C:/IPP/venv-35-x64/Scripts/python.exe";
       "-DPYTHON_INCLUDE_DIR:PATH=C:/IPP/venv-35-x64/Include";
       "-DPYTHON_LIBRARY:FILEPATH=C:/Python35-x64/libs/python35.lib"];
      ["C:/IPP/venv-35-x64/Scripts/python.exe"; "setup.py"; "clean"] ].
Proof.
  apply (@build_wheel_single_invocations demo_platform "35-x64" demo_world
           "C:/Windows").
  - reflexivity.
  - reflexivity.
  - reflexivity.
  - intros args e c f Hf. exact Hf.
Defined.

(** ** Post-build cleanup *)

(** [os.path.splitext] on sample names: leading dots start no
    extension, and only the last dot counts. *)
Example os_path_splitext_samples :
  map os_path_splitext ["a.cpp"; ".cpp"; "a.b.xml"; "noext"; "..obj"; "x.obj."]
  = [("a", ".cpp"); (".cpp", ""); ("a.b", ".xml"); ("noext", ""); ("..obj", "");
     ("x.obj", ".")].
Proof. by vm_compute. Qed.

Lemma NoDup_omap_inj {A B} (h : A → option B) (l : list A) :
  NoDup l →
  (∀ x y z, x ∈ l → y ∈ l → h x = Some z → h y = Some z → x = y) →
  NoDup (omap h l).
Proof.
  induction l as [|x l IH]; intros Hnd Hinj; simpl; [constructor|].
  apply NoDup_cons in Hnd as [Hx Hnd].
  assert (Hrest : NoDup (omap h l)).
  { apply IH; [done|]. intros a b c Ha Hb Hha Hhb.
    apply (Hinj a b c); [apply elem_of_cons; by right..|done|done]. }
  destruct (h x) as [z|] eqn:Hhx; [|done].
  apply NoDup_cons. split; [|done].
  intros Hz. apply list_elem_of_omap in Hz as (y & Hy & Hhy).
  assert (x = y) as ->.
  { apply (Hinj x y z); [apply elem_of_cons; by left|apply elem_of_cons; by right|done..]. }
  done.
Qed.

Lemma entry_of_Some root p n c n' :
  entry_of root (p, n) = Some (c, n') ↔ p = root ++ [c] ∧ n' = n.
Proof.
  unfold entry_of. simpl. split.
  - destruct (rev p) as [|d rp] eqn:Hrev; [done|].
    case_decide as Hroot; [|done]. intros [= -> ->].
    split; [|done]. rewrite <-(rev_involutive p), Hrev. simpl. by rewrite Hroot.
  - intros [-> ->]. rewrite rev_app_distr. simpl.
    rewrite rev_involutive. by rewrite decide_True.
Qed.

Lemma elem_of_listdir f root c n :
  (c, n) ∈ listdir f root ↔ f !! (root ++ [c]) = Some n.
Proof.
  unfold listdir. rewrite list_elem_of_omap. split.
  - intros ([p m] & Hin & Hent). apply entry_of_Some in Hent as [-> ->].
    by apply elem_of_map_to_list in Hin.
  - intros Hl. exists (root ++ [c], n). split; [by apply elem_of_map_to_list|].
    by apply entry_of_Some.
Qed.

Lemma NoDup_listdir f root : NoDup (listdir f root).
Proof.
  apply NoDup_omap_inj; [apply NoDup_map_to_list|].
  intros [p n] [q m] [c k] _ _ Hp Hq.
  apply entry_of_Some in Hp as [-> ->]. by apply entry_of_Some in Hq as [-> ->].
Qed.

Lemma elem_of_file_names f root name :
  name ∈ file_names (listdir f root)
  ↔ ∃ content, f !! (root ++ [name]) = Some (File content).
Proof.
  unfold file_names. rewrite list_elem_of_omap. split.
  - intros ([c n] & Hin & Hf). apply elem_of_listdir in Hin. simpl in Hf.
    destruct n as [|content]; [done|]. simplify_eq. eauto.
  - intros [content Hl]. exists (name, File content).
    split; [by apply elem_of_listdir|done].
Qed.

Lemma NoDup_file_names f root : NoDup (file_names (listdir f root)).
Proof.
  apply NoDup_omap_inj; [apply NoDup_listdir|].
  intros [c n] [d m] name Hc Hd Hfc Hfd. simpl in *.
  destruct n as [|cn]; [done|]. destruct m as [|cm]; [done|]. simplify_eq.
  apply elem_of_listdir in Hc, Hd. by simplify_eq.
Qed.

Lemma elem_of_walk_dirs f top root :
  root ∈ walk_dirs f top
  ↔ root = top ∨ (top `prefix_of` root ∧ root ≠ top ∧ is_dir f root = true).
Proof.
  unfold walk_dirs. rewrite elem_of_cons, list_elem_of_filter. split.
  - intros [?|[(? & ? & Hd) _]]; [by left|right].
    split_and!; [done..|]. by apply Is_true_true.
  - intros [?|(Hpre & Hne & Hd)]; [by left|right].
    split; [split_and!; [done..|by apply Is_true_true]|]. unfold is_dir in Hd.
    destruct root as [|c root]; [by apply prefix_nil_inv in Hpre|].
    simpl in Hd.
    match type of Hd with context [match ?x with _ => _ end] =>
      destruct x as [n|] eqn:Hl; [|done] end.
    apply list_elem_of_fmap. exists (c :: root, n).
    split; [done|]. by apply elem_of_map_to_list.
Qed.

Lemma NoDup_walk_dirs f top : NoDup (walk_dirs f top).
Proof.
  unfold walk_dirs. apply NoDup_cons. split.
  - rewrite list_elem_of_filter. by intros [(_ & ? & _) _].
  - apply NoDup_filter, NoDup_fst_map_to_list.
Qed.

Lemma lookup_node_snoc f (p : path) c : lookup_node f (p ++ [c]) = f !! (p ++ [c]).
Proof. by destruct p. Qed.

Lemma is_file_lookup f (p : path) c :
  is_file f (p ++ [c]) = true ↔ ∃ content, f !! (p ++ [c]) = Some (File content).
Proof.
  unfold is_file. rewrite lookup_node_snoc. split.
  - destruct (f !! (p ++ [c])) as [[|content]|]; try done. eauto.
  - by intros [content ->].
Qed.

Lemma swept_store_equiv f0 (D1 D2 : path → Prop) f :
  (∀ p, D1 p ↔ D2 p) → swept_store f0 D1 f → swept_store f0 D2 f.
Proof.
  intros Heq Hs p. destruct (Hs p) as [Hin Hout]. split; intros HD.
  - apply Hin. by apply Heq.
  - apply Hout. intros HD1. apply HD. by apply Heq.
Qed.

Lemma intermediate_name_join root name :
  intermediate_name name → os_path_join root name = root ++ [name].
Proof.
  intros Hint. unfold os_path_join.
  destruct (String.eqb_spec name "..") as [->|]; [|done].
  unfold intermediate_name in Hint. vm_compute in Hint.
  apply list_elem_of_In in Hint. simpl in Hint. by destruct Hint as [|[|[|]]].
Qed.

(** The inner loop of the cleanup, over the file names of one
    directory: it returns, having removed exactly the files among them
    that have an intermediate extension. *)
Lemma sweep_files f0 root names : ∀ (D : path → Prop) wc,
  NoDup names →
  (∀ name, name ∈ names → is_file f0 (root ++ [name]) = true) →
  (∀ name, name ∈ names → ¬ D (root ++ [name])) →
  swept_store f0 D (fs wc) →
  ∃ f',
    for_each names (λ filename,
      if bool_decide ((os_path_splitext filename).2 ∈ [".cpp"; ".xml"; ".obj"])
      then os_remove (os_path_join root filename)
      else ret tt) wc
    = (Ok tt, set_fs f' wc)
    ∧ swept_store f0
        (λ p, D p ∨ ∃ name, name ∈ names ∧ intermediate_name name ∧ p = root ++ [name])
        f'.
Proof.
  induction names as [|name names IH]; intros D wc Hnd Hfiles HnD Hinv; simpl.
  { exists (fs wc). split; [by destruct wc|].
    eapply swept_store_equiv; [|done]. intros p. split; [by left|].
    intros [?|(n & Hin & _)]; [done|]. by apply elem_of_nil in Hin. }
  apply NoDup_cons in Hnd as [Hname Hnd].
  assert (Hrest : ∀ n, n ∈ names → n ∈ name :: names)
    by (intros n Hn; apply elem_of_cons; by right).
  assert (Hhead : name ∈ name :: names) by (apply elem_of_cons; by left).
  unfold bind. case_bool_decide as Hint.
  - rewrite intermediate_name_join by done.
    destruct (proj1 (is_file_lookup _ _ _) (Hfiles name Hhead)) as [content Hl0].
    assert (Hl : lookup_node (fs wc) (root ++ [name]) = Some (File content)).
    { rewrite lookup_node_snoc, <-Hl0. apply Hinv. by apply HnD. }
    unfold os_remove at 1. rewrite Hl.
    destruct (IH (λ p, D p ∨ p = root ++ [name])
                 (set_fs (delete (root ++ [name]) (fs wc)) wc)) as (f' & Hrun & Hs).
    + done.
    + eauto.
    + intros n Hn [HD|Heq]; [exact (HnD n (Hrest n Hn) HD)|].
      apply app_inj_tail in Heq as [_ ->]. done.
    + intros p. split.
      * intros [HD| ->]; simpl; [|by rewrite lookup_delete_eq].
        destruct (decide (root ++ [name] = p)) as [<-|Hne];
          [by rewrite lookup_delete_eq|].
        rewrite lookup_delete_ne by done. by apply Hinv.
      * intros Hp. simpl. rewrite lookup_delete_ne by (intros <-; apply Hp; by right).
        apply Hinv. intros HD. apply Hp. by left.
    + exists f'. split; [exact Hrun|].
      eapply swept_store_equiv; [|exact Hs]. intros p. split.
      * intros [[HD| ->]|(n & Hn & Hi & ->)]; [by left| |].
        -- right. exists name. eauto.
        -- right. exists n. eauto.
      * intros [HD|(n & Hn & Hi & ->)]; [by left; left|].
        apply elem_of_cons in Hn as [->|Hn]; [left; by right|].
        right. exists n. eauto.
  - unfold ret. destruct (IH D wc) as (f' & Hrun & Hs); eauto.
    exists f'. split; [exact Hrun|].
    eapply swept_store_equiv; [|exact Hs]. intros p. split.
    + intros [HD|(n & Hn & Hi & ->)]; [by left|]. right. exists n. eauto.
    + intros [HD|(n & Hn & Hi & ->)]; [by left|].
      apply elem_of_cons in Hn as [->|Hn]; [done|]. right. exists n. eauto.
Qed.

(** The outer loop of the cleanup, over the directories of the walk. *)
Lemma sweep_dirs f0 roots : ∀ (D : path → Prop) wc,
  NoDup roots →
  (∀ root name, root ∈ roots → ¬ D (root ++ [name])) →
  swept_store f0 D (fs wc) →
  ∃ f',
    for_each
      (map (λ root, (root, dir_names (listdir f0 root), file_names (listdir f0 root)))
           roots)
      (λ triple,
        for_each triple.2 (λ filename,
          if bool_decide ((os_path_splitext filename).2 ∈ [".cpp"; ".xml"; ".obj"])
          then os_remove (os_path_join triple.1.1 filename)
          else ret tt)) wc
    = (Ok tt, set_fs f' wc)
    ∧ swept_store f0
        (λ p, D p ∨ ∃ root name, root ∈ roots
                ∧ name ∈ file_names (listdir f0 root)
                ∧ intermediate_name name ∧ p = root ++ [name])
        f'.
Proof.
  induction roots as [|root roots IH]; intros D wc Hnd HnD Hinv; simpl.
  { exists (fs wc). split; [by destruct wc|].
    eapply swept_store_equiv; [|done]. intros p. split; [by left|].
    intros [?|(r & n & Hin & _)]; [done|]. by apply elem_of_nil in Hin. }
  apply NoDup_cons in Hnd as [Hroot Hnd].
  assert (Hrest : ∀ r, r ∈ roots → r ∈ root :: roots)
    by (intros r Hr; apply elem_of_cons; by right).
  assert (Hhead : root ∈ root :: roots) by (apply elem_of_cons; by left).
  destruct (sweep_files f0 root (file_names (listdir f0 root)) D wc)
    as (f1 & Hrun1 & Hs1).
  { apply NoDup_file_names. }
  { intros name Hname. apply is_file_lookup. by apply elem_of_file_names. }
  { intros name _. by apply HnD. }
  { done. }
  unfold bind. rewrite Hrun1.
  destruct (IH (λ p, D p ∨ ∃ name, name ∈ file_names (listdir f0 root)
                       ∧ intermediate_name name ∧ p = root ++ [name])
               (set_fs f1 wc)) as (f' & Hrun & Hs).
  - done.
  - intros r n Hr [HD|(m & _ & _ & Heq)]; [exact (HnD r n (Hrest r Hr) HD)|].
    apply app_inj_tail in Heq as [-> _]. done.
  - done.
  - exists f'. split; [exact Hrun|].
    eapply swept_store_equiv; [|exact Hs]. intros p. split.
    + intros [[HD|(n & Hn & Hi & ->)]|(r & n & Hr & Hn & Hi & ->)]; [by left| |].
      * right. exists root, n. eauto.
      * right. exists r, n. eauto.
    + intros [HD|(r & n & Hr & Hn & Hi & ->)]; [by left; left|].
      apply elem_of_cons in Hr as [->|Hr].
      * left. right. exists n. eauto.
      * right. exists r, n. eauto.
Qed.

(** The paths removed by the two loops are the intermediate files. *)
Lemma swept_paths_intermediate f top p :
  is_dir f top = true →
  (∃ root name, root ∈ walk_dirs f top ∧ name ∈ file_names (listdir f root)
     ∧ intermediate_name name ∧ p = root ++ [name])
  ↔ intermediate_file f top p.
Proof.
  intros Htop. unfold intermediate_file. split.
  - intros (root & name & Hroot & Hname & Hint & ->). exists root, name.
    apply elem_of_file_names in Hname. apply is_file_lookup in Hname.
    apply elem_of_walk_dirs in Hroot as [->|(Hpre & _ & Hd)]; by split_and!.
  - intros (root & name & -> & Hpre & Hd & Hf & Hint). exists root, name.
    split_and!; [|by apply elem_of_file_names, is_file_lookup|done..].
    apply elem_of_walk_dirs. destruct (decide (root = top)); [by left|by right].
Qed.

(** C7. With the build tree and its [Wrapping/Generators]
    directory in place, the cleanup returns, touching nothing but the
    file system, and afterwards: every regular file with one of the
    three intermediate extensions that sat in a directory of the build
    tree is gone; [Wrapping/Generators] is gone with everything below
    it; and every other path is as before, in particular every path
    outside [Wrapping/Generators] whose name has none of the three
    extensions. *)
Theorem remove_unnecessary_files_effect (build_path : path) (w : World) :
  let generators := build_path ++ ["Wrapping"; "Generators"] in
  is_dir (fs w) build_path = true →
  is_dir (fs w) generators = true →
  ∃ f',
    remove_unnecessary_files build_path w = (Ok tt, set_fs f' w)
    ∧ (∀ p, intermediate_file (fs w) build_path p → f' !! p = None)
    ∧ (∀ p, generators `prefix_of` p → f' !! p = None)
    ∧ (∀ p, ¬ generators `prefix_of` p → ¬ intermediate_file (fs w) build_path p →
            f' !! p = fs w !! p)
    ∧ (∀ root name, ¬ generators `prefix_of` (root ++ [name]) →
                    ¬ intermediate_name name →
                    f' !! (root ++ [name]) = fs w !! (root ++ [name])).
Proof.
  intros generators Htop Hgen.
  destruct (sweep_dirs (fs w) (walk_dirs (fs w) build_path) (λ _, False) w)
    as (f1 & Hrun & Hs).
  { apply NoDup_walk_dirs. }
  { intros root name _ []. }
  { intros p. by split. }
  assert (Hs' : swept_store (fs w) (intermediate_file (fs w) build_path) f1).
  { eapply swept_store_equiv; [|exact Hs]. intros p.
    rewrite <-(swept_paths_intermediate _ _ _ Htop).
    split; [intros [[]|?]; done|by right]. }
  clear Hs.
  assert (Hjoin : os_path_join (os_path_join build_path "Wrapping") "Generators"
                  = generators).
  { unfold os_path_join. simpl. by rewrite <-app_assoc. }
  assert (Hsnoc : generators = (build_path ++ ["Wrapping"]) ++ ["Generators"]).
  { subst generators. by rewrite <-app_assoc. }
  assert (Hgd : lookup_node f1 generators = Some Dir).
  { unfold is_dir in Hgen. rewrite Hsnoc in *. rewrite lookup_node_snoc in *.
    destruct (fs w !! ((build_path ++ ["Wrapping"]) ++ ["Generators"]))
      as [[|content]|] eqn:Hl; try done.
    destruct (Hs' ((build_path ++ ["Wrapping"]) ++ ["Generators"])) as [_ Hsame].
    etrans; [apply Hsame|exact Hl].
    intros (root & name & Heq & _ & _ & Hf & _). unfold is_file in Hf.
    rewrite lookup_node_snoc in Hf.
    assert (Hl' : fs w !! ((build_path ++ ["Wrapping"]) ++ ["Generators"]) = Some Dir)
      by exact Hl.
    by rewrite Hl' in Hf. }
  exists (filter (λ kv : path * node, ¬ generators `prefix_of` kv.1) f1).
  split_and!.
  - unfold remove_unnecessary_files. cbv zeta. unfold bind at 1. unfold os_walk.
    rewrite Htop. unfold bind. rewrite Hrun, Hjoin.
    unfold shutil_rmtree. simpl fs.
    by rewrite Hgd.
  - intros p Hp. apply map_lookup_filter_None. left. by apply Hs'.
  - intros p Hp. apply map_lookup_filter_None. right. intros n _ Hn. by apply Hn.
  - intros p Hout Hni. transitivity (f1 !! p); [|by apply Hs'].
    destruct (f1 !! p) as [n|] eqn:Hl.
    + by apply map_lookup_filter_Some.
    + apply map_lookup_filter_None. by left.
  - intros root name Hout Hni.
    assert (Hnf : ¬ intermediate_file (fs w) build_path (root ++ [name])).
    { intros (r & n & Heq & _ & _ & _ & Hi). by apply app_inj_tail in Heq as [_ ->]. }
    transitivity (f1 !! (root ++ [name])); [|by apply Hs'].
    destruct (f1 !! (root ++ [name])) as [n|] eqn:Hl.
    + by apply map_lookup_filter_Some.
    + apply map_lookup_filter_None. by left.
Qed.

Lemma remove_unnecessary_files_effect_witness :
  let generators := demo_build_path ++ ["Wrapping"; "Generators"] in
  ∃ f',
    remove_unnecessary_files demo_build_path demo_build_world
    = (Ok tt, set_fs f' demo_build_world)
    ∧ (∀ p, intermediate_file (fs demo_build_world) demo_build_path p → f' !! p = None)
    ∧ (∀ p, generators `prefix_of` p → f' !! p = None)
    ∧ (∀ p, ¬ generators `prefix_of` p →
            ¬ intermediate_file (fs demo_build_world) demo_build_path p →
            f' !! p = fs demo_build_world !! p)
    ∧ (∀ root name, ¬ generators `prefix_of` (root ++ [name]) →
                    ¬ intermediate_name name →
                    f' !! (root ++ [name]) = fs demo_build_world !! (root ++ [name])).
Proof.
  apply (remove_unnecessary_files_effect demo_build_path demo_build_world);
    reflexivity.
Defined.

(** The cleanup on the sample build tree: the generated source and the
    metadata file go, the header stays, and the generator script goes
    with its directory. *)
Example remove_unnecessary_files_sample :
  let out := remove_unnecessary_files demo_build_path demo_build_world in
  out.1 = Ok tt
  ∧ fs out.2 !! (demo_build_path ++ ["itkImagePython.cpp"]) = None
  ∧ fs out.2 !! (demo_build_path ++ ["Wrapping"; "itkImage.xml"]) = None
  ∧ fs out.2 !! (demo_build_path ++ ["itkImage.h"]) = Some (File "header")
  ∧ fs out.2 !! (demo_build_path ++ ["Wrapping"]) = Some Dir
  ∧ fs out.2 !! (demo_build_path ++ ["Wrapping"; "Generators"]) = None
  ∧ fs out.2 !! (demo_build_path ++ ["Wrapping"; "Generators"; "igenerator.py"]) = None.
Proof. vm_compute. by split_and!. Qed.

(** What lies in [Wrapping/Generators] goes with the directory
    whatever its extension: the generator script of the sample tree
    has none of the three extensions, and it is not left unchanged. *)
Example cleanup_removes_files_of_other_extensions :
  let out := remove_unnecessary_files demo_build_path demo_build_world in
  ¬ (∀ root name, ¬ intermediate_name name →
       fs out.2 !! (root ++ [name]) = fs demo_build_world !! (root ++ [name])).
Proof.
  intros out Hall.
  specialize (Hall (demo_build_path ++ ["Wrapping"; "Generators"]) "igenerator.py").
  assert (Hext : ¬ intermediate_name "igenerator.py").
  { unfold intermediate_name. vm_compute. intros Hin.
    apply list_elem_of_In in Hin. simpl in Hin. by destruct Hin as [|[|[|]]]. }
  specialize (Hall Hext). vm_compute in Hall. discriminate Hall.
Qed.

(** * Further properties of the script *)

(** ** Scoped environment mutation, continued *)

Lemma apply_kwargs_lookup_other kwargs : ∀ e var,
  var ∉ kwargs.*1 → apply_kwargs kwargs e !! var = e !! var.
Proof.
  induction kwargs as [|[k [v|]] kwargs IH]; intros e var Hout; simpl; [done|..];
    apply not_elem_of_cons in Hout as [Hne Hout]; simpl in Hne;
    rewrite IH by done.
  - by rewrite lookup_insert_ne.
  - by rewrite lookup_delete_ne.
Qed.

Lemma apply_kwargs_lookup_requested kwargs : ∀ e var value,
  NoDup kwargs.*1 → (var, value) ∈ kwargs → apply_kwargs kwargs e !! var = value.
Proof.
  induction kwargs as [|[k ov] kwargs IH]; intros e var value Hnd Hin.
  { by apply elem_of_nil in Hin. }
  simpl in Hnd. apply NoDup_cons in Hnd as [Hk Hnd].
  apply elem_of_cons in Hin as [[= -> ->]|Hin].
  - destruct ov as [v|]; simpl; rewrite apply_kwargs_lookup_other by done.
    + by rewrite lookup_insert_eq.
    + by rewrite lookup_delete_eq.
  - destruct ov as [v|]; simpl; by apply IH.
Qed.

Lemma apply_kwargs_app k1 k2 e :
  apply_kwargs (k1 ++ k2) e = apply_kwargs k2 (apply_kwargs k1 e).
Proof.
  revert e. induction k1 as [|[k [v|]] k1 IH]; intros e; simpl; [done|..]; apply IH.
Qed.

(** X1. Inside the scope, with the requested names all different,
    every requested variable holds the requested value, or is unset
    when [None] was requested, and every other variable is as before;
    a scope that only looks at the state leaves the state as it was. *)
Theorem push_env_scope_environment (kwargs : list (string * option string))
    (w : World) :
  NoDup kwargs.*1 →
  ∃ inside,
    push_env kwargs get w = (Ok inside, w)
    ∧ (∀ var value, (var, value) ∈ kwargs → environ inside !! var = value)
    ∧ (∀ var, var ∉ kwargs.*1 → environ inside !! var = environ w !! var)
    ∧ cwd inside = cwd w ∧ fs inside = fs w.
Proof.
  intros Hnd. exists (set_environ (apply_kwargs kwargs (environ w)) w).
  split_and!;
    [|intros var value Hin; by apply apply_kwargs_lookup_requested
     |intros var Hout; by apply apply_kwargs_lookup_other|done..].
  rewrite (push_env_return kwargs get w
             (set_environ (apply_kwargs kwargs (environ w)) w)
             (set_environ (apply_kwargs kwargs (environ w)) w)) by done.
  by destruct w.
Qed.

Lemma push_env_scope_environment_witness :
  ∃ inside,
    push_env [("PATH", Some "C:/venv/Scripts"); ("HOME", None)] get demo_world
    = (Ok inside, demo_world)
    ∧ (∀ var value, (var, value) ∈ [("PATH", Some "C:/venv/Scripts"); ("HOME", None)] →
                    environ inside !! var = value)
    ∧ (∀ var, var ∉ [("PATH", Some "C:/venv/Scripts"); ("HOME", None)].*1 →
              environ inside !! var = environ demo_world !! var)
    ∧ cwd inside = cwd demo_world ∧ fs inside = fs demo_world.
Proof.
  apply (push_env_scope_environment
           [("PATH", Some "C:/venv/Scripts"); ("HOME", None)] demo_world).
  apply (bool_decide_unpack _). vm_compute. exact I.
Defined.

(** X2. Two nested scopes behave as one scope with the changes of the
    outer one followed by those of the inner one, whatever the wrapped
    operation does. *)
Theorem push_env_nested {A} (outer inner : list (string * option string))
    (body : M A) (w : World) :
  push_env outer (push_env inner body) w = push_env (outer ++ inner) body w.
Proof.
  destruct (body (set_environ (apply_kwargs (outer ++ inner) (environ w)) w))
    as [[a|e] w2] eqn:Hbody.
  - rewrite (push_env_return (outer ++ inner) body w w2 a Hbody).
    rewrite apply_kwargs_app in Hbody.
    rewrite (push_env_return outer (push_env inner body) w
               (set_environ (apply_kwargs outer (environ w)) w2) a); [done|].
    by rewrite (push_env_return inner body
                  (set_environ (apply_kwargs outer (environ w)) w) w2 a Hbody).
  - rewrite (push_env_raise (outer ++ inner) body w w2 e Hbody).
    rewrite apply_kwargs_app in Hbody.
    apply push_env_raise. by apply push_env_raise.
Qed.

(** X3. The scope never changes the outcome of the wrapped operation:
    the value it returned, or the exception it raised, comes out as it
    is. *)
Theorem push_env_outcome_unchanged {A} (kwargs : list (string * option string))
    (body : M A) (w : World) :
  (push_env kwargs body w).1
  = (body (set_environ (apply_kwargs kwargs (environ w)) w)).1.
Proof.
  destruct (body (set_environ (apply_kwargs kwargs (environ w)) w))
    as [[a|e] w2] eqn:Hbody.
  - by rewrite (push_env_return _ _ _ _ _ Hbody).
  - by rewrite (push_env_raise _ _ _ _ _ Hbody).
Qed.

(** ** The directory-ensure helper, continued *)

Lemma os_mkdir_adds_dir p w r w' :
  os_mkdir p w = (r, w') →
  w' = set_fs (fs w') w
  ∧ ∀ q, fs w' !! q = fs w !! q
         ∨ (fs w !! q = None ∧ fs w' !! q = Some Dir ∧ q = p).
Proof.
  intros Hrun.
  destruct (os_mkdir_outcome _ _ _ _ Hrun) as [(-> & Hex & _ & ->)|(e & _ & -> & _)].
  - split; [done|]. intros q. simpl. destruct (decide (p = q)) as [<-|Hne].
    + right. rewrite lookup_insert_eq. split_and!; [|done..].
      unfold path_exists in Hex. destruct p; [done|]. simpl in Hex.
      by destruct (fs w !! (s :: p)).
    + left. by rewrite lookup_insert_ne.
  - split; [by destruct w|]. intros q. by left.
Qed.

(** [os.makedirs] changes nothing but the file system, where it leaves
    every entry as it is and adds directories on the way to the path. *)
Lemma makedirs_rev_adds_dirs rp : ∀ w r w',
  makedirs_rev rp w = (r, w') →
  w' = set_fs (fs w') w
  ∧ ∀ q, fs w' !! q = fs w !! q
         ∨ (fs w !! q = None ∧ fs w' !! q = Some Dir ∧ q `prefix_of` rev rp).
Proof.
  induction rp as [|c rp IH]; intros w r w' Hrun; simpl in Hrun.
  { destruct (os_mkdir_adds_dir _ _ _ _ Hrun) as [Hw Hq]. split; [done|].
    intros q. destruct (Hq q) as [?|(? & ? & ->)]; [by left|by right]. }
  unfold bind, os_path_exists in Hrun; simpl in Hrun.
  replace (rev (c :: rp)) with (rev rp ++ [c]) in * by done.
  destruct (path_exists (fs w) (rev rp)).
  { unfold ret in Hrun. destruct (os_mkdir_adds_dir _ _ _ _ Hrun) as [Hw Hq].
    split; [done|]. intros q. destruct (Hq q) as [?|(? & ? & ->)]; [by left|by right]. }
  unfold ignore_file_exists in Hrun.
  destruct (makedirs_rev rp w) as [r1 w1] eqn:Hrec.
  destruct (IH _ _ _ Hrec) as [Hw1 Hq1].
  assert (Hstep : (∃ u, os_mkdir (rev rp ++ [c]) w1 = (u, w')) ∨ w' = w1).
  { destruct r1 as [[]|[[] q| | | | |]]; simplify_eq; eauto. }
  destruct Hstep as [[u Hmk]| ->].
  - destruct (os_mkdir_adds_dir _ _ _ _ Hmk) as [Hw Hq]. split.
    { rewrite Hw, Hw1. done. }
    intros q. destruct (Hq q) as [Heq|(Hn & Hd & ->)].
    + rewrite Heq. destruct (Hq1 q) as [?|(? & ? & Hpre)]; [by left|right].
      split_and!; [done..|]. by apply prefix_app_r.
    + destruct (Hq1 (rev rp ++ [c])) as [Heq|(_ & Hd1 & _)].
      * right. by rewrite <-Heq.
      * rewrite Hd1 in Hn. done.
  - split; [done|]. intros q.
    destruct (Hq1 q) as [?|(? & ? & Hpre)]; [by left|right].
    split_and!; [done..|]. by apply prefix_app_r.
Qed.

(** X4. Whether it returns or raises, [mkdir_p] changes nothing but the
    file system, leaves every entry stored there as it is, and adds
    directories only, each of them the path itself or one of the
    directories above it. *)
Theorem mkdir_p_only_adds_directories (p : path) (w : World) :
  let out := mkdir_p p w in
  out.2 = set_fs (fs out.2) w
  ∧ ∀ q, fs out.2 !! q = fs w !! q
         ∨ (fs w !! q = None ∧ fs out.2 !! q = Some Dir ∧ q `prefix_of` p).
Proof.
  intros out. subst out. unfold mkdir_p, os_makedirs.
  destruct (makedirs_rev (rev p) w) as [r1 w1] eqn:Hmk.
  pose proof (makedirs_rev_adds_dirs _ _ _ _ Hmk) as Hadd.
  rewrite rev_involutive in Hadd.
  destruct r1 as [[]|[e q| | | | |]]; try done.
  by destruct (bool_decide (e = EEXIST) && is_dir (fs w1) p).
Qed.

Lemma exists_not_file_is_dir f p :
  path_exists f p = true → is_file f p = false → is_dir f p = true.
Proof.
  unfold path_exists, is_file, is_dir. by destruct (lookup_node f p) as [[]|].
Qed.

Lemma lookup_node_nonempty f (p : path) : p ≠ [] → lookup_node f p = f !! p.
Proof. by destruct p. Qed.

Lemma is_file_same_or_new_dir f f' q :
  (f' !! q = f !! q ∨ (f !! q = None ∧ f' !! q = Some Dir)) →
  is_file f q = false → is_file f' q = false.
Proof.
  unfold is_file. destruct q as [|c q]; [done|]. simpl.
  by intros [->|(_ & ->)].
Qed.

(** With no regular file on the way and no directory on the way that
    refuses new entries, [os.makedirs] returns or fails with "file
    exists", and the path is a directory afterwards. *)
Lemma makedirs_rev_succeeds rp : ∀ w,
  (∀ q, q `prefix_of` rev rp → is_file (fs w) q = false ∧ q ∉ denied w) →
  ∃ r w', makedirs_rev rp w = (r, w')
    ∧ (r = Ok tt ∨ r = Raise (OSError EEXIST (rev rp)))
    ∧ is_dir (fs w') (rev rp) = true.
Proof.
  assert (Hmk : ∀ p w, path_exists (fs w) (removelast p) = true →
            (∀ q, q `prefix_of` p → is_file (fs w) q = false ∧ q ∉ denied w) →
            ∃ r w', os_mkdir p w = (r, w')
              ∧ (r = Ok tt ∨ r = Raise (OSError EEXIST p))
              ∧ is_dir (fs w') p = true).
  { intros p w Hpar Hclean. unfold os_mkdir.
    destruct (path_exists (fs w) p) eqn:Hex.
    { eexists _, _. split; [done|]. split; [by right|].
      apply exists_not_file_is_dir; [done|]. by apply Hclean. }
    assert (Hpre : removelast p `prefix_of` p).
    { destruct p as [|c p] using rev_ind; [done|].
      rewrite removelast_snoc. by apply prefix_app_r. }
    rewrite (exists_not_file_is_dir _ _ Hpar (proj1 (Hclean _ Hpre))). simpl.
    rewrite bool_decide_eq_false_2 by (by apply Hclean).
    eexists _, _. split; [done|]. split; [by left|].
    simpl. unfold is_dir. by rewrite lookup_node_insert_dir. }
  induction rp as [|c rp IH]; intros w Hclean; simpl.
  { apply Hmk; done. }
  replace (rev (c :: rp)) with (rev rp ++ [c]) in * by done.
  unfold bind, os_path_exists. simpl.
  destruct (path_exists (fs w) (rev rp)) eqn:Hhead.
  { unfold ret. apply Hmk; [by rewrite removelast_snoc|done]. }
  destruct (IH w) as (r1 & w1 & Hrec & Hr1 & Hd1).
  { intros q Hq. apply Hclean. by apply prefix_app_r. }
  unfold ignore_file_exists. rewrite Hrec.
  destruct (makedirs_rev_adds_dirs _ _ _ _ Hrec) as [Hw1 Hq1].
  assert (Hgo : ∃ r w', os_mkdir (rev rp ++ [c]) w1 = (r, w')
            ∧ (r = Ok tt ∨ r = Raise (OSError EEXIST (rev rp ++ [c])))
            ∧ is_dir (fs w') (rev rp ++ [c]) = true).
  { apply Hmk.
    - rewrite removelast_snoc. by apply path_exists_is_dir.
    - intros q Hq. destruct (Hclean q Hq) as [Hf Hden]. split.
      + eapply is_file_same_or_new_dir; [|exact Hf].
        destruct (Hq1 q) as [?|(? & ? & _)]; [by left|by right].
      + rewrite Hw1. exact Hden. }
  by destruct Hr1 as [-> | ->].
Qed.

(** X5. When no component of the way to the path is a regular file
    and no directory on the way refuses new entries, [mkdir_p]
    returns, and the path is a directory afterwards. *)
Theorem mkdir_p_succeeds (p : path) (w : World) :
  (∀ q, q `prefix_of` p → is_file (fs w) q = false ∧ q ∉ denied w) →
  ∃ w', mkdir_p p w = (Ok tt, w') ∧ is_dir (fs w') p = true.
Proof.
  intros Hclean. unfold mkdir_p, os_makedirs.
  destruct (makedirs_rev_succeeds (rev p) w) as (r & w' & Hrun & Hr & Hd).
  { by rewrite rev_involutive. }
  rewrite rev_involutive in Hr, Hd. rewrite Hrun. exists w'.
  destruct Hr as [-> | ->]; [done|]. simpl. by rewrite Hd.
Qed.

Lemma mkdir_p_succeeds_witness :
  ∃ w', mkdir_p ["C:"; "build"; "a"; "b"] demo_world = (Ok tt, w')
        ∧ is_dir (fs w') ["C:"; "build"; "a"; "b"] = true.
Proof.
  apply (mkdir_p_succeeds ["C:"; "build"; "a"; "b"] demo_world).
  intros q [k Hk]. split; [|apply not_elem_of_empty].
  destruct q as [|c1 [|c2 [|c3 [|c4 [|c5 q]]]]]; simpl in Hk; simplify_eq;
    reflexivity.
Defined.

Lemma is_dir_insert_dir f p q :
  is_dir f q = true → is_dir (<[p := Dir]> f) q = true.
Proof.
  intros Hq. unfold is_dir. destruct (decide (p = q)) as [->|Hne].
  - by rewrite lookup_node_insert_dir.
  - by rewrite lookup_node_insert_ne.
Qed.

Lemma os_mkdir_wf p w r w' :
  os_mkdir p w = (r, w') → wf_fs (fs w) → wf_fs (fs w').
Proof.
  intros Hrun Hwf.
  destruct (os_mkdir_outcome _ _ _ _ Hrun) as [(_ & _ & Hd & ->)|(e & _ & -> & _)];
    [|done].
  intros q n Hq. simpl in *. apply is_dir_insert_dir.
  destruct (decide (p = q)) as [<-|Hne]; [done|].
  rewrite lookup_insert_ne in Hq by done. by eapply Hwf.
Qed.

Lemma makedirs_rev_wf rp : ∀ w r w',
  makedirs_rev rp w = (r, w') → wf_fs (fs w) → wf_fs (fs w').
Proof.
  induction rp as [|c rp IH]; intros w r w' Hrun Hwf; simpl in Hrun.
  { by eapply os_mkdir_wf. }
  unfold bind, os_path_exists in Hrun; simpl in Hrun.
  destruct (path_exists (fs w) (rev rp)).
  { unfold ret in Hrun. by eapply os_mkdir_wf. }
  unfold ignore_file_exists in Hrun.
  destruct (makedirs_rev rp w) as [r1 w1] eqn:Hrec.
  specialize (IH _ _ _ Hrec Hwf).
  destruct r1 as [[]|[[] q| | | | |]]; simplify_eq; eauto using os_mkdir_wf.
Qed.

(** In a tree where every entry lies in a directory, everything above
    a directory is a directory. *)
Lemma wf_fs_ancestors f (p : path) :
  wf_fs f → is_dir f p = true → ∀ q, q `prefix_of` p → is_dir f q = true.
Proof.
  intros Hwf. induction p as [|c p IH] using rev_ind; intros Hp q Hq.
  { by apply prefix_nil_inv in Hq as ->. }
  destruct Hq as [k Hk]. destruct k as [|c' k _] using rev_ind.
  { rewrite app_nil_r in Hk. by subst q. }
  rewrite app_assoc in Hk. apply app_inj_tail in Hk as [-> _].
  apply IH; [|by apply prefix_app_r].
  unfold is_dir in Hp. rewrite lookup_node_snoc in Hp.
  destruct (f !! ((q ++ k) ++ [c])) as [n|] eqn:Hl; [|done].
  apply Hwf in Hl. by rewrite removelast_snoc in Hl.
Qed.

(** X6. In a file tree where every entry lies in a directory,
    [mkdir_p] keeps that shape whether it returns or raises, and once
    it has returned the path and everything above it are directories:
    the parent directories have been created where needed. *)
Theorem mkdir_p_creates_parents (p : path) (w : World) :
  wf_fs (fs w) →
  let out := mkdir_p p w in
  wf_fs (fs out.2)
  ∧ (out.1 = Ok tt → ∀ q, q `prefix_of` p → is_dir (fs out.2) q = true).
Proof.
  intros Hwf out. subst out. unfold mkdir_p.
  destruct (os_makedirs p w) as [r1 w1] eqn:Hmk.
  assert (Hwf1 : wf_fs (fs w1)) by (by eapply makedirs_rev_wf).
  destruct (os_makedirs_outcome _ _ _ _ Hmk) as [Hok _].
  destruct r1 as [[]|[e q| | | | |]]; simpl; try done.
  - split; [done|]. intros _. by apply wf_fs_ancestors; [|apply Hok].
  - destruct (bool_decide (e = EEXIST)); simpl; [|done].
    destruct (is_dir (fs w1) p) eqn:Hd; simpl; [|done].
    split; [done|]. intros _. by apply wf_fs_ancestors.
Qed.

Lemma mkdir_p_creates_parents_witness :
  let out := mkdir_p ["C:"; "build"; "a"; "b"] demo_world in
  wf_fs (fs out.2)
  ∧ (out.1 = Ok tt →
     ∀ q, q `prefix_of` ["C:"; "build"; "a"; "b"] → is_dir (fs out.2) q = true).
Proof.
  apply (mkdir_p_creates_parents ["C:"; "build"; "a"; "b"] demo_world).
  change (map_Forall (λ (p : path) (_ : node),
                        is_dir (fs demo_world) (removelast p) = true)
                     (fs demo_world)).
  apply (bool_decide_unpack _). vm_compute. exact I.
Defined.

(** ** Scoped working-directory change, continued *)

Lemma os_chdir_dir p w : is_dir (fs w) p = true → os_chdir p w = (Ok tt, set_cwd p w).
Proof. intros Hd. by destruct (os_chdir_outcome p w) as [[_ ?]|[? _]]; [|congruence]. Qed.

(** The scope once [__enter__] has returned in state [w0]: the body
    runs there, and with the recorded directory still in place its
    outcome is the outcome of the scope. *)
Lemma push_dir_scope_run {A} directory make_directory (body : M A) w w0 r w1 :
  push_dir_enter (push_dir_init directory make_directory) w
    = (Ok (PushDir directory make_directory (Some (cwd w))), w0) →
  body w0 = (r, w1) →
  is_dir (fs w1) (cwd w) = true →
  push_dir directory make_directory body w = (r, set_cwd (cwd w) w1).
Proof.
  intros Hin Hbody Hback. unfold push_dir, with_object, bind. rewrite Hin.
  unfold try_finally, push_dir_exit. simpl. rewrite Hbody.
  by rewrite os_chdir_dir.
Qed.

(** X7. A scope on a target that does not exist and is not to be
    created raises "no such file or directory" for the target: the
    body does not run and nothing has changed. *)
Theorem push_dir_missing_target {A} (d : path) (body : M A) (w : World) :
  path_exists (fs w) d = false →
  push_dir (Some d) false body w = (Raise (OSError ENOENT d), w).
Proof.
  intros Hex. unfold push_dir, with_object, push_dir_enter, push_dir_init.
  unfold bind, os_getcwd, ret, os_chdir. simpl.
  unfold path_exists in Hex. by destruct (lookup_node (fs w) d).
Qed.

Lemma push_dir_missing_target_witness :
  push_dir (Some ["C:"; "nowhere"]) false (os_remove ["C:"; "work"]) demo_world
  = (Raise (OSError ENOENT ["C:"; "nowhere"]), demo_world).
Proof.
  apply (push_dir_missing_target ["C:"; "nowhere"] (os_remove ["C:"; "work"]) demo_world).
  reflexivity.
Defined.

(** X8. A scope on an existing directory, named by a path that is
    not empty, runs the body with that directory as the working
    directory and everything else as before;
    when the directory the process came from is still there as the body
    ends, the scope ends as the body did, returning its value or
    raising its exception, in the state the body left except that the
    process is back where it came from. *)
Theorem push_dir_runs_body_in_target {A} (d : path) (body : M A) (w : World)
    (r : res A) (w1 : World) :
  d ≠ [] →
  is_dir (fs w) d = true →
  body (set_cwd d w) = (r, w1) →
  is_dir (fs w1) (cwd w) = true →
  push_dir (Some d) false body w = (r, set_cwd (cwd w) w1).
Proof.
  intros _ Hd Hbody Hback. eapply push_dir_scope_run; [|done..].
  unfold push_dir_enter, push_dir_init, bind, os_getcwd, ret. simpl.
  by rewrite os_chdir_dir.
Qed.

Lemma push_dir_runs_body_in_target_witness :
  push_dir (Some ["C:"; "build"]) false os_getcwd demo_world
  = (Ok ["C:"; "build"], set_cwd (cwd demo_world) (set_cwd ["C:"; "build"] demo_world)).
Proof.
  apply (push_dir_runs_body_in_target ["C:"; "build"] os_getcwd demo_world);
    [discriminate|reflexivity..].
Defined.

(** X9. A scope that is to create its target, named by a path that
    is not empty, on a way to the target with no regular file on it
    and no directory that refuses new entries: the target is created with the directories missing above
    it, the body runs in the target, and when the directory the process
    came from is still there as the body ends, the scope ends as the
    body did with the process back where it came from. *)
Theorem push_dir_creates_target {A} (d : path) (body : M A) (w : World) :
  d ≠ [] →
  (∀ q, q `prefix_of` d → is_file (fs w) q = false ∧ q ∉ denied w) →
  ∃ w0, mkdir_p d w = (Ok tt, w0)
    ∧ is_dir (fs w0) d = true
    ∧ ∀ r w1, body (set_cwd d w0) = (r, w1) →
        is_dir (fs w1) (cwd w) = true →
        push_dir (Some d) true body w = (r, set_cwd (cwd w) w1).
Proof.
  intros _ Hclean.
  assert (Hmk : ∃ w0, mkdir_p d w = (Ok tt, w0) ∧ is_dir (fs w0) d = true).
  { unfold mkdir_p, os_makedirs.
    destruct (makedirs_rev_succeeds (rev d) w) as (r & w' & Hrun & Hr & Hd).
    { by rewrite rev_involutive. }
    rewrite rev_involutive in Hr, Hd. rewrite Hrun. exists w'.
    destruct Hr as [-> | ->]; [done|]. simpl. by rewrite Hd. }
  destruct Hmk as (w0 & Hmk & Hd). exists w0. split_and!; [done..|].
  intros r w1 Hbody Hback. eapply push_dir_scope_run; [|done..].
  unfold push_dir_enter, push_dir_init, bind, os_getcwd, ret. simpl.
  rewrite Hmk. by rewrite os_chdir_dir.
Qed.

Lemma push_dir_creates_target_witness :
  ∃ w0, mkdir_p ["C:"; "build"; "a"] demo_world = (Ok tt, w0)
    ∧ is_dir (fs w0) ["C:"; "build"; "a"] = true
    ∧ ∀ r w1, os_getcwd (set_cwd ["C:"; "build"; "a"] w0) = (r, w1) →
        is_dir (fs w1) (cwd demo_world) = true →
        push_dir (Some ["C:"; "build"; "a"]) true os_getcwd demo_world
        = (r, set_cwd (cwd demo_world) w1).
Proof.
  apply (push_dir_creates_target ["C:"; "build"; "a"] os_getcwd demo_world);
    [discriminate|].
  intros q [k Hk]. split; [|apply not_elem_of_empty].
  destruct q as [|c1 [|c2 [|c3 [|c4 q]]]]; simpl in Hk; simplify_eq; reflexivity.
Defined.

(** X10. A scope without a target moves nowhere on entry, and on exit
    it moves the process back to where it was on entry: a change of
    directory made by the body does not outlast the scope. *)
Theorem push_dir_without_target {A} (make_directory : bool) (body : M A)
    (w : World) (r : res A) (w1 : World) :
  body w = (r, w1) →
  is_dir (fs w1) (cwd w) = true →
  push_dir None make_directory body w = (r, set_cwd (cwd w) w1).
Proof.
  intros Hbody Hback. by eapply push_dir_scope_run.
Qed.

Lemma push_dir_without_target_witness :
  push_dir None false (os_chdir ["C:"; "build"]) demo_world
  = (Ok tt, set_cwd (cwd demo_world) (set_cwd ["C:"; "build"] demo_world)).
Proof.
  apply (push_dir_without_target false (os_chdir ["C:"; "build"]) demo_world);
    reflexivity.
Defined.

(** ** Per-version environment preparation, continued *)

Section FurtherScriptProperties.
Context `{Platform}.

(** Past the check of the interpreter root. *)
Lemma prepare_build_env_run python_version w :
  let python_dir := ["C:"; "Python" +:+ python_version] in
  let venv_dir := os_path_join ROOT_DIR ("venv-" +:+ python_version) in
  let venv := [path_str (os_path_join (os_path_join python_dir "Scripts")
                                      "virtualenv.exe");
               path_str venv_dir] in
  path_exists (fs w) python_dir = true →
  prepare_build_env python_version w
  = ((if negb (path_exists (fs w) venv_dir) then check_call venv else ret tt) >>
     pip_install venv_dir "scikit-build")
      (add_stdout ("Creating python virtual environment: " +:+ path_str venv_dir) w).
Proof.
  intros python_dir venv_dir venv Hroot.
  unfold prepare_build_env, bind, os_path_exists. fold python_dir. by rewrite Hroot.
Qed.

(** X11. With the interpreter root and the isolated environment both
    in place and the installer of the isolated environment exiting
    with status 0, [prepare_build_env] returns after starting exactly
    one process, the installation of [scikit-build] with that
    installer, in the environment and directory of the script: no
    environment is created, and the file system is as the installer
    left it. *)
Theorem prepare_build_env_existing_venv (python_version : string) (w : World) :
  let venv_dir := os_path_join ROOT_DIR ("venv-" +:+ python_version) in
  let pip := [path_str (os_path_join (os_path_join venv_dir "Scripts") "pip.exe");
              "install"; "scikit-build"] in
  path_exists (fs w) ["C:"; "Python" +:+ python_version] = true →
  path_exists (fs w) venv_dir = true →
  (spawn pip (environ w) (cwd w) (fs w)).1.1 = true →
  ∃ w', prepare_build_env python_version w = (Ok tt, w')
    ∧ calls w' = calls w ++ [Call pip (environ w) (cwd w)]
    ∧ fs w' = (spawn pip (environ w) (cwd w) (fs w)).2
    ∧ environ w' = environ w ∧ cwd w' = cwd w.
Proof.
  intros venv_dir pip Hroot Hvenv Hpip.
  rewrite prepare_build_env_run by done. fold venv_dir. rewrite Hvenv. cbn [negb].
  unfold bind at 1, ret at 1. unfold pip_install. rewrite bind_print.
  fold venv_dir. fold pip. rewrite check_call_ok by exact Hpip.
  eexists. split; [reflexivity|]. by split_and!.
Qed.

(** X12. With the interpreter root in place, no isolated environment
    yet, and the [virtualenv.exe] of the interpreter root exiting with
    a non-zero status on the directory of the isolated environment,
    [prepare_build_env] raises [CalledProcessError] for that command:
    it is the only process started, the installer is not run. *)
Theorem prepare_build_env_venv_failure (python_version : string) (w : World) :
  let python_dir := ["C:"; "Python" +:+ python_version] in
  let venv_dir := os_path_join ROOT_DIR ("venv-" +:+ python_version) in
  let venv := [path_str (os_path_join (os_path_join python_dir "Scripts")
                                      "virtualenv.exe");
               path_str venv_dir] in
  path_exists (fs w) python_dir = true →
  path_exists (fs w) venv_dir = false →
  (spawn venv (environ w) (cwd w) (fs w)).1.1 = false →
  ∃ w', prepare_build_env python_version w = (Raise (CalledProcessError venv), w')
    ∧ calls w' = calls w ++ [Call venv (environ w) (cwd w)].
Proof.
  intros python_dir venv_dir venv Hroot Hvenv Hfail.
  rewrite prepare_build_env_run by done. fold python_dir. fold venv_dir. fold venv.
  rewrite Hvenv. cbn [negb]. unfold bind at 1. rewrite check_call_run.
  match goal with |- context [spawn venv ?e ?c ?f] =>
    change (spawn venv e c f) with (spawn venv (environ w) (cwd w) (fs w)) end.
  rewrite Hfail. eexists. split; [reflexivity|]. by rewrite calls_started.
Qed.

(** X24. With the interpreter root in place, no isolated environment
    yet, the [virtualenv.exe] of the interpreter root exiting with
    status 0 and then the installer of the new environment exiting
    with status 0 on the file system that [virtualenv.exe] left,
    [prepare_build_env] returns after starting exactly these two
    processes, in this order, both in the environment and directory of
    the script. *)
Theorem prepare_build_env_creates_venv (python_version : string) (w : World) :
  let python_dir := ["C:"; "Python" +:+ python_version] in
  let venv_dir := os_path_join ROOT_DIR ("venv-" +:+ python_version) in
  let venv := [path_str (os_path_join (os_path_join python_dir "Scripts")
                                      "virtualenv.exe");
               path_str venv_dir] in
  let pip := [path_str (os_path_join (os_path_join venv_dir "Scripts") "pip.exe");
              "install"; "scikit-build"] in
  let made := spawn venv (environ w) (cwd w) (fs w) in
  path_exists (fs w) python_dir = true →
  path_exists (fs w) venv_dir = false →
  made.1.1 = true →
  (spawn pip (environ w) (cwd w) made.2).1.1 = true →
  ∃ w', prepare_build_env python_version w = (Ok tt, w')
    ∧ calls w' = calls w ++ [Call venv (environ w) (cwd w); Call pip (environ w) (cwd w)]
    ∧ fs w' = (spawn pip (environ w) (cwd w) made.2).2.
Proof.
  intros python_dir venv_dir venv pip made Hroot Hvenv Hmade Hpip.
  rewrite prepare_build_env_run by done. fold python_dir. fold venv_dir. fold venv.
  rewrite Hvenv. cbn [negb]. rewrite bind_check_call_ok by exact Hmade.
  unfold pip_install. rewrite bind_print. fold venv_dir. fold pip.
  rewrite check_call_ok by exact Hpip.
  eexists. split; [reflexivity|]. split; [|done].
  rewrite !calls_started. simpl. by rewrite <-app_assoc.
Qed.

(** ** The per-version build, continued *)

(** X13. Without a [PATH] variable in the environment, [build_wheel]
    raises [KeyError] for [PATH] in both modes, after printing its
    five lines of paths: no process has been started, and environment,
    file system and working directory are as before. *)
Theorem build_wheel_without_path (python_version : string) (single_wheel : bool)
    (w : World) :
  environ w !! "PATH" = None →
  ∃ w', build_wheel python_version single_wheel w = (Raise (KeyError "PATH"), w')
    ∧ calls w' = calls w ∧ environ w' = environ w
    ∧ fs w' = fs w ∧ cwd w' = cwd w
    ∧ length (stdout w') = length (stdout w) + 5.
Proof.
  intros Hpath. unfold build_wheel. cbv zeta. rewrite !bind_print.
  unfold bind at 1. unfold environ_get at 1. simpl environ. rewrite Hpath.
  eexists. split; [done|]. simpl. split_and!; [done..|].
  rewrite !length_app. simpl. lia.
Qed.

(** X14. When the installation of the dependencies exits with a
    non-zero status, [build_wheel] raises [CalledProcessError] for it
    in both modes: it is the only process started, the file system is
    as that process left it, so that an existing build tree has not
    been removed by the script, and [PATH] keeps the value the scope
    gave it. *)
Theorem build_wheel_install_failure (python_version : string) (single_wheel : bool)
    (w : World) (old : string) :
  let scripts := os_path_join (os_path_join ROOT_DIR ("venv-" +:+ python_version))
                              "Scripts" in
  let install := [path_str (os_path_join scripts "pip.exe"); "install"; "-r";
                  path_str (os_path_join ROOT_DIR "requirements-dev.txt")] in
  let scoped := <["PATH" := path_str scripts +:+ ":" +:+ old]> (environ w) in
  environ w !! "PATH" = Some old →
  (spawn install scoped (cwd w) (fs w)).1.1 = false →
  ∃ w', build_wheel python_version single_wheel w
        = (Raise (CalledProcessError install), w')
    ∧ calls w' = calls w ++ [Call install scoped (cwd w)]
    ∧ fs w' = (spawn install scoped (cwd w) (fs w)).2
    ∧ environ w' = scoped.
Proof.
  intros scripts install scoped Hpath Hfail.
  unfold build_wheel. cbv zeta. rewrite !bind_print.
  unfold bind at 1. unfold environ_get at 1. simpl environ. rewrite Hpath.
  match goal with |- context [push_env ?kw ?body ?v] =>
    set (kwargs := kw); set (b := body); set (w1 := v) end.
  assert (Hbody : b (set_environ (apply_kwargs kwargs (environ w1)) w1)
                  = (Raise (CalledProcessError install),
                     started install (set_environ scoped w1))).
  { subst b. unfold build_wheel_in_env. unfold bind at 1.
    rewrite check_call_run. fold scripts. fold install.
    match goal with |- context [spawn install ?e ?c ?f] =>
      change (spawn install e c f) with (spawn install scoped (cwd w) (fs w)) end.
    by rewrite Hfail. }
  rewrite (push_env_raise _ _ _ _ _ Hbody).
  eexists. split; [done|]. by split_and!.
Qed.

(** X15. Whenever [build_wheel] returns, in either mode, the
    environment is the one it was called in: the [PATH] entry of the
    isolated environment and anything the build steps did to the
    environment are gone. *)
Theorem build_wheel_restores_environ (python_version : string) (single_wheel : bool)
    (w w' : World) :
  build_wheel python_version single_wheel w = (Ok tt, w') →
  environ w' = environ w.
Proof.
  unfold build_wheel. cbv zeta. rewrite !bind_print.
  unfold bind at 1. unfold environ_get at 1. simpl environ.
  destruct (environ w !! "PATH") as [old|]; [|done].
  match goal with |- context [push_env ?kw ?body ?v] =>
    set (kwargs := kw); set (b := body); set (w1 := v) end.
  destruct (b (set_environ (apply_kwargs kwargs (environ w1)) w1))
    as [[[]|e] w2] eqn:Hbody.
  - rewrite (push_env_return _ _ _ _ _ Hbody). by intros [= <-].
  - by rewrite (push_env_raise _ _ _ _ _ Hbody).
Qed.

(** ** Failed processes *)







































(** ** The wheels of the manifest, continued *)

(** Line ends as text mode hands them out: a carriage return and a
    line feed count once, a carriage return on its own counts too. *)
Example universal_newlines_samples :
  let cr := String "013"%char EmptyString in
  universal_newlines ("itk" +:+ cr +:+ newline +:+ "vtk" +:+ cr +:+ "x" +:+ newline)
  = "itk" +:+ newline +:+ "vtk" +:+ newline +:+ "x" +:+ newline
  ∧ universal_newlines (cr +:+ cr +:+ newline) = newline +:+ newline
  ∧ readline (universal_newlines ("itk" +:+ cr +:+ newline +:+ "vtk"))
    = "itk" +:+ newline.
Proof. by vm_compute. Qed.

Lemma iter_str_length s : length (iter_str s) = String.length s.
Proof. induction s as [|c s IH]; simpl; congruence. Qed.

Lemma iter_str_single s name : name ∈ iter_str s → String.length name = 1.
Proof.
  induction s as [|c s IH]; simpl; [by intros ?%elem_of_nil|].
  intros [->|Hin]%elem_of_cons; [done|by apply IH].
Qed.

Lemma readline_prefix s : ∃ rest, s = readline s +:+ rest.
Proof.
  induction s as [|c s [rest IH]]; simpl; [by exists EmptyString|].
  destruct (Ascii.eqb c "010"); [by exists s|].
  exists rest. change (String c s = String c (readline s +:+ rest)). by f_equal.
Qed.

(** X18. With the manifest in place and every program exiting with
    status 0, the loop over the manifest returns after one round of
    configure, package and clean per character of the text that
    [readline] returned: that text is the beginning, up to and
    including the first line end, of the manifest as a file opened in
    text mode hands it out (a carriage return with or without a line
    feed after it read as a line feed), there are as many rounds as it
    has characters, and the component name of every round is one
    character long. *)
Theorem build_named_wheels_rounds
    (python_executable python_include_dir build_path setup_py_configure : path)
    (python_library source_path build_type content : string) (w : World) :
  (∀ args e c f, (spawn args e c f).1.1 = true) →
  lookup_node (fs w) (os_path_join (os_path_join SCRIPT_DIR "..") "WHEEL_NAMES.txt")
    = Some (File content) →
  let text := universal_newlines content in
  let names := iter_str (readline text) in
  (∃ rest, text = readline text +:+ rest)
  ∧ length names = String.length (readline text)
  ∧ (∀ name, name ∈ names → String.length name = 1)
  ∧ ∃ w', build_named_wheels python_executable python_include_dir build_path
            setup_py_configure python_library source_path build_type w = (Ok tt, w')
      ∧ map argv (calls w')
        = map argv (calls w)
          ++ concat (map (named_wheel_commands python_executable python_include_dir
                            build_path setup_py_configure python_library source_path
                            build_type) names).
Proof.
  intros Hok Hfile text names. split_and!.
  - apply readline_prefix.
  - apply iter_str_length.
  - apply iter_str_single.
  - unfold build_named_wheels. cbv zeta.
    unfold bind at 1. unfold open_read at 1. rewrite Hfile.
    by apply for_each_build_named_wheel.
Qed.

(** ** The shared build pass *)

Lemma mkdir_p_clean_run (p : path) (w : World) :
  (∀ q, q `prefix_of` p → is_file (fs w) q = false ∧ q ∉ denied w) →
  ∃ w0, mkdir_p p w = (Ok tt, w0) ∧ is_dir (fs w0) p = true
    ∧ w0 = set_fs (fs w0) w
    ∧ ∀ q, is_dir (fs w) q = true → is_dir (fs w0) q = true.
Proof.
  intros Hclean.
  destruct (makedirs_rev_succeeds (rev p) w) as (r & w0 & Hrun & Hr & Hd).
  { by rewrite rev_involutive. }
  destruct (makedirs_rev_adds_dirs _ _ _ _ Hrun) as [Hw0 _].
  assert (Hkeep : ∀ q, is_dir (fs w) q = true → is_dir (fs w0) q = true).
  { intros q Hq. unfold is_dir in *.
    destruct (lookup_node (fs w) q) as [[]|] eqn:Hl; try done.
    by rewrite (makedirs_rev_keeps _ _ _ _ _ _ Hrun Hl). }
  rewrite rev_involutive in Hr, Hd. exists w0.
  unfold mkdir_p, os_makedirs. rewrite Hrun.
  destruct Hr as [-> | ->]; [done|]. simpl. by rewrite Hd.
Qed.

Lemma push_dir_enter_created (d : path) (w w0 : World) :
  mkdir_p d w = (Ok tt, w0) → is_dir (fs w0) d = true → cwd w0 = cwd w →
  push_dir_enter (push_dir_init (Some d) true) w
  = (Ok (PushDir (Some d) true (Some (cwd w))), set_cwd d w0).
Proof.
  intros Hmk Hd Hc. unfold push_dir_enter, push_dir_init, bind, os_getcwd, ret. simpl.
  rewrite Hmk. by rewrite os_chdir_dir.
Qed.

(** X19. The shared build pass, for a build tree named by a path
    that is not empty, on a way to the build tree with no regular file
    on it and no directory that refuses new entries, with
    every program exiting with status 0 and leaving the directory of
    the script in place: the build tree is created, [cmake] and then
    [ninja] run in it, both with the environment changed as the
    generator asked, and afterwards the script is back in its directory
    with the environment it had before. *)
Theorem build_itk_python_scope
    (python_executable python_include_dir build_path ninja_executable : path)
    (python_library source_path build_type : string)
    (build_env : list (string * option string)) (w : World) :
  build_path ≠ [] →
  (∀ q, q `prefix_of` build_path → is_file (fs w) q = false ∧ q ∉ denied w) →
  is_dir (fs w) (cwd w) = true →
  (∀ args e c f, (spawn args e c f).1.1 = true) →
  (∀ args e c f, is_dir f (cwd w) = true → is_dir (spawn args e c f).2 (cwd w) = true) →
  let scoped := apply_kwargs build_env (environ w) in
  ∃ w' cmake,
    build_itk_python python_executable python_include_dir build_path ninja_executable
      python_library source_path build_type build_env w = (Ok tt, w')
    ∧ calls w' = calls w ++ [Call cmake scoped build_path;
                             Call [path_str ninja_executable] scoped build_path]
    ∧ head cmake = Some "cmake" ∧ last cmake = Some source_path
    ∧ cwd w' = cwd w ∧ environ w' = environ w.
Proof.
  intros _ Hclean Hhome Hok Hstay scoped.
  destruct (mkdir_p_clean_run build_path w Hclean) as (w0 & Hmk & Hd & Hw0 & Hkeep).
  assert (Hc0 : cwd w0 = cwd w) by (by rewrite Hw0).
  assert (He0 : environ w0 = environ w) by (by rewrite Hw0).
  assert (Hcalls0 : calls w0 = calls w) by (by rewrite Hw0).
  unfold build_itk_python. cbv zeta.
  match goal with |- context [push_env build_env ?b] => set (body := b) end.
  set (w_in := set_environ (apply_kwargs build_env (environ (set_cwd build_path w0)))
                           (set_cwd build_path w0)).
  destruct (body w_in) as [r2 w2] eqn:Hbody.
  assert (Hbody' := Hbody). subst body.
  rewrite bind_check_call_ok in Hbody' by apply Hok.
  rewrite check_call_ok in Hbody' by apply Hok.
  injection Hbody' as <- <-.
  apply push_env_return in Hbody.
  eexists _, _. split.
  { eapply push_dir_scope_run.
    - by apply push_dir_enter_created.
    - exact Hbody.
    - simpl. apply Hstay, Hstay. subst w_in. simpl. by apply Hkeep. }
  simpl. rewrite Hcalls0, He0, <-app_assoc. by split_and!.
Qed.

(** ** The generator query, continued *)

(** X20. With the helper program exiting with status 0, the generator
    query has started exactly one process, the interpreter of the
    isolated environment on the temporary file that holds the helper
    program.  When the process has left the file in place, the file is
    removed and the query returns what [json.loads] returned, the
    dictionary of a JSON object or any other JSON value alike, and
    raises [ValueError] when the output cannot be decoded or parsed.
    When the process has removed the file, the query raises "no such
    file" for it whatever the process printed. *)
Theorem query_generator_env_outcome (python_executable : path) (w : World) :
  let script := temp_name (fs w) in
  let args := [path_str python_executable; path_str script] in
  let written := <[script := File helper_program]> (<[script := File EmptyString]> (fs w)) in
  let out := spawn args (environ w) (cwd w) written in
  script ≠ [] →
  out.1.1 = true →
  calls (query_generator_env python_executable w).2
  = calls w ++ [Call args (environ w) (cwd w)]
  ∧ (is_file out.2 script = true →
       query_generator_env python_executable w
       = (match json_loads out.1.2 with
          | Some build_env => Ok build_env
          | None => Raise (ValueError out.1.2)
          end,
          set_fs (delete script out.2)
                 (add_call (Call args (environ w) (cwd w)) w)))
  ∧ (out.2 !! script = None →
       (query_generator_env python_executable w).1 = Raise (OSError ENOENT script)).
Proof.
  intros script args written out Hne Hexit.
  set (r := match json_loads out.1.2 with
            | Some build_env => Ok build_env
            | None => Raise (ValueError out.1.2)
            end).
  assert (Hrun : query_generator_env python_executable w
            = try_finally (λ _, (r, started args (set_fs written w)))
                          (os_remove script) w).
  { unfold query_generator_env. unfold bind at 1. unfold get. fold script.
    unfold try_finally. unfold bind at 1. unfold write_file at 1, modify at 1.
    unfold bind at 1. unfold write_file at 1, modify at 1.
    unfold bind at 1. unfold check_output, bind, run_process. cbn [fst snd].
    fold args. change (spawn args _ _ _) with out. subst r.
    unfold ret, raise. cbv beta iota. rewrite Hexit.
    destruct (json_loads out.1.2); reflexivity. }
  rewrite Hrun. unfold try_finally.
  assert (Hfs : fs (started args (set_fs written w)) = out.2) by done.
  assert (Hlook : lookup_node out.2 script = out.2 !! script) by (by destruct script).
  unfold os_remove. rewrite Hfs, Hlook. split_and!.
  - by destruct (out.2 !! script) as [[]|].
  - intros Hfile. unfold is_file in Hfile. rewrite Hlook in Hfile.
    by destruct (out.2 !! script) as [[]|].
  - by intros ->.
Qed.

(** For a dictionary whose values are all strings or [None] the
    shared build pass is the one with these keyword arguments. *)
Lemma build_itk_python_with_str pe pi bp ne pl sp bt members kwargs :
  str_members members = (kwargs, true) →
  build_itk_python_with pe pi bp ne pl sp bt (JObject members)
  = build_itk_python pe pi bp ne pl sp bt kwargs.
Proof. intros Hstr. unfold build_itk_python_with. by rewrite Hstr. Qed.

(** X25. When [json.loads] has returned a value that is no dictionary,
    the shared build pass raises [TypeError] from the call of
    [push_env], inside the scope of [push_dir]: on a way to the build
    tree with no regular file on it and no directory that refuses new
    entries, and with the directory of the script in place, the build
    tree has been created by then, no process has been started, and
    the script is back in its directory with its environment as
    before. *)
Theorem build_itk_python_not_a_mapping
    (python_executable python_include_dir build_path ninja_executable : path)
    (python_library source_path build_type : string) (w : World) :
  build_path ≠ [] →
  (∀ q, q `prefix_of` build_path → is_file (fs w) q = false ∧ q ∉ denied w) →
  is_dir (fs w) (cwd w) = true →
  ∃ w',
    build_itk_python_with python_executable python_include_dir build_path
      ninja_executable python_library source_path build_type JNotObject w
    = (Raise (Exception "TypeError"), w')
    ∧ is_dir (fs w') build_path = true
    ∧ calls w' = calls w ∧ cwd w' = cwd w ∧ environ w' = environ w.
Proof.
  intros _ Hclean Hhome.
  destruct (mkdir_p_clean_run build_path w Hclean) as (w0 & Hmk & Hd & Hw0 & Hkeep).
  assert (Hc0 : cwd w0 = cwd w) by (by rewrite Hw0).
  unfold build_itk_python_with. eexists. split.
  { eapply push_dir_scope_run.
    - by apply push_dir_enter_created.
    - reflexivity.
    - simpl. by apply Hkeep. }
  simpl. split_and!; [exact Hd|by rewrite Hw0|done|by rewrite Hw0].
Qed.

(** ** Post-build cleanup, continued *)

(** X21. Without a [Wrapping/Generators] directory in the build tree
    the cleanup raises "no such file or directory" for it: the final
    [shutil.rmtree] has no [ignore_errors].  The sweep has run all the
    same: with the build tree in place the files with an intermediate
    extension are gone and everything else is as before, and with no
    build tree nothing has changed. *)
Theorem remove_unnecessary_files_without_generators (build_path : path) (w : World) :
  let generators := build_path ++ ["Wrapping"; "Generators"] in
  fs w !! generators = None →
  ∃ f',
    remove_unnecessary_files build_path w
    = (Raise (OSError ENOENT generators), set_fs f' w)
    ∧ (is_dir (fs w) build_path = true →
         (∀ p, intermediate_file (fs w) build_path p → f' !! p = None)
         ∧ (∀ p, ¬ intermediate_file (fs w) build_path p → f' !! p = fs w !! p))
    ∧ (is_dir (fs w) build_path = false → f' = fs w).
Proof.
  intros generators Hgen.
  assert (Hjoin : os_path_join (os_path_join build_path "Wrapping") "Generators"
                  = generators).
  { unfold os_path_join. simpl. by rewrite <-app_assoc. }
  assert (Hsnoc : generators = (build_path ++ ["Wrapping"]) ++ ["Generators"]).
  { subst generators. by rewrite <-app_assoc. }
  assert (Hnode : ∀ f, lookup_node f generators = f !! generators).
  { intros f. rewrite Hsnoc. apply lookup_node_snoc. }
  destruct (is_dir (fs w) build_path) eqn:Htop.
  - destruct (sweep_dirs (fs w) (walk_dirs (fs w) build_path) (λ _, False) w)
      as (f1 & Hrun & Hs).
    { apply NoDup_walk_dirs. }
    { intros root name _ []. }
    { intros p. by split. }
    assert (Hs' : swept_store (fs w) (intermediate_file (fs w) build_path) f1).
    { eapply swept_store_equiv; [|exact Hs]. intros p.
      rewrite <-(swept_paths_intermediate _ _ _ Htop).
      split; [intros [[]|?]; done|by right]. }
    assert (Hg1 : f1 !! generators = None).
    { rewrite <-Hgen. apply Hs'. intros (root & name & _ & _ & _ & Hf & _).
      unfold is_file in Hf. by rewrite Hnode, Hgen in Hf. }
    exists f1. split_and!.
    + unfold remove_unnecessary_files. cbv zeta. unfold bind at 1. unfold os_walk.
      rewrite Htop. unfold bind. rewrite Hrun, Hjoin.
      unfold shutil_rmtree. simpl fs. by rewrite Hnode, Hg1.
    + intros _. split; intros p Hp; by apply Hs'.
    + done.
  - exists (fs w). split_and!; [|done..].
    unfold remove_unnecessary_files. cbv zeta. unfold bind at 1. unfold os_walk.
    rewrite Htop. simpl for_each. unfold bind, ret. rewrite Hjoin.
    unfold shutil_rmtree. rewrite Hnode, Hgen. by destruct w.
Qed.

(** ** The whole run *)

(** X22. When the root of the first interpreter, [C:/Python27-x64],
    does not exist, the whole run ends at once with
    [FileNotFoundError]: nothing is printed, no process is started, no
    directory is created, and the other two interpreters are not
    looked at. *)
Theorem build_wheels_missing_first_interpreter (w : World) :
  path_exists (fs w) ["C:"; "Python27-x64"] = false →
  build_wheels w
  = (Raise (FileNotFoundError
              ("Aborting. python_dir [" +:+ path_str ["C:"; "Python27-x64"]
               +:+ "] does not exist.")), w).
Proof.
  intros Hmiss. unfold build_wheels. unfold bind at 1.
  unfold prepare_build_env at 1. unfold bind at 1. unfold os_path_exists at 1.
  change ("Python" +:+ "27-x64") with "Python27-x64". by rewrite Hmiss.
Qed.

End FurtherScriptProperties.

(** ** The further properties at work on the sample worlds *)

Lemma prepare_build_env_existing_venv_witness :
  let pip := ["C:/IPP/venv-27-x64/Scripts/pip.exe"; "install"; "scikit-build"] in
  let w := demo_world_venv in
  ∃ w', @prepare_build_env demo_platform "27-x64" w = (Ok tt, w')
    ∧ calls w' = calls w ++ [Call pip (environ w) (cwd w)]
    ∧ fs w' = fs w
    ∧ environ w' = environ w ∧ cwd w' = cwd w.
Proof.
  apply (@prepare_build_env_existing_venv demo_platform "27-x64" demo_world_venv);
    reflexivity.
Defined.

Lemma prepare_build_env_venv_failure_witness :
  let venv := ["C:/Python27-x64/Scripts/virtualenv.exe"; "C:/IPP/venv-27-x64"] in
  let w := demo_world_python in
  ∃ w', @prepare_build_env failing_platform "27-x64" w
        = (Raise (CalledProcessError venv), w')
    ∧ calls w' = calls w ++ [Call venv (environ w) (cwd w)].
Proof.
  apply (@prepare_build_env_venv_failure failing_platform "27-x64" demo_world_python);
    reflexivity.
Defined.

Lemma prepare_build_env_creates_venv_witness :
  let venv := ["C:/Python27-x64/Scripts/virtualenv.exe"; "C:/IPP/venv-27-x64"] in
  let pip := ["C:/IPP/venv-27-x64/Scripts/pip.exe"; "install"; "scikit-build"] in
  let w := demo_world_python in
  ∃ w', @prepare_build_env demo_platform "27-x64" w = (Ok tt, w')
    ∧ calls w' = calls w ++ [Call venv (environ w) (cwd w); Call pip (environ w) (cwd w)]
    ∧ fs w' = fs w.
Proof.
  apply (@prepare_build_env_creates_venv demo_platform "27-x64" demo_world_python);
    reflexivity.
Defined.

Lemma build_wheel_without_path_witness :
  let w := set_environ ∅ demo_world in
  ∃ w', @build_wheel demo_platform "27-x64" false w = (Raise (KeyError "PATH"), w')
    ∧ calls w' = calls w ∧ environ w' = environ w
    ∧ fs w' = fs w ∧ cwd w' = cwd w
    ∧ length (stdout w') = length (stdout w) + 5.
Proof.
  apply (@build_wheel_without_path demo_platform "27-x64" false
           (set_environ ∅ demo_world)).
  reflexivity.
Defined.

Lemma build_wheel_install_failure_witness :
  let install := ["C:/IPP/venv-27-x64/Scripts/pip.exe"; "install"; "-r";
                  "C:/IPP/requirements-dev.txt"] in
  let scoped := <["PATH" := "C:/IPP/venv-27-x64/Scripts:C:/Windows"]>
                  (environ demo_world) in
  ∃ w', @build_wheel failing_platform "27-x64" false demo_world
        = (Raise (CalledProcessError install), w')
    ∧ calls w' = calls demo_world ++ [Call install scoped (cwd demo_world)]
    ∧ fs w' = fs demo_world
    ∧ environ w' = scoped.
Proof.
  apply (@build_wheel_install_failure failing_platform "27-x64" false demo_world
           "C:/Windows"); reflexivity.
Defined.

Lemma build_wheel_restores_environ_witness :
  environ (@build_wheel building_platform "27-x64" true demo_build_world).2
  = environ demo_build_world.
Proof.
  apply (@build_wheel_restores_environ building_platform "27-x64" true
           demo_build_world).
  vm_compute. reflexivity.
Defined.



Lemma build_named_wheels_rounds_witness :
  let pe := ["C:"; "IPP"; "venv-27-x64"; "Scripts"; "python.exe"] in
  let pi := ["C:"; "IPP"; "venv-27-x64"; "Include"] in
  let spc := ["C:"; "IPP"; "setup_py_configure.py"] in
  let lib := "C:/Python27-x64/libs/python27.lib" in
  let src := "C:/IPP/standalone-build/ITK-source" in
  let text := "itk" +:+ newline in
  let names := ["i"; "t"; "k"; newline] in
  (∃ rest, text = text +:+ rest)
  ∧ length names = 4
  ∧ (∀ name, name ∈ names → String.length name = 1)
  ∧ ∃ w', @build_named_wheels demo_platform pe pi demo_build_path spc lib src
            "Release" demo_world_manifest_crlf = (Ok tt, w')
      ∧ map argv (calls w')
        = map argv (calls demo_world_manifest_crlf)
          ++ concat (map (@named_wheel_commands demo_platform pe pi demo_build_path
                            spc lib src "Release") names).
Proof.
  apply (@build_named_wheels_rounds demo_platform
           ["C:"; "IPP"; "venv-27-x64"; "Scripts"; "python.exe"]
           ["C:"; "IPP"; "venv-27-x64"; "Include"] demo_build_path
           ["C:"; "IPP"; "setup_py_configure.py"]
           "C:/Python27-x64/libs/python27.lib" "C:/IPP/standalone-build/ITK-source"
           "Release" ("itk" +:+ String "013"%char newline) demo_world_manifest_crlf);
    reflexivity.
Defined.

Lemma build_itk_python_scope_witness :
  let pe := ["C:"; "IPP"; "venv-27-x64"; "Scripts"; "python.exe"] in
  let pi := ["C:"; "IPP"; "venv-27-x64"; "Include"] in
  let ne := ["C:"; "IPP"; "venv-27-x64"; "Scripts"; "ninja.exe"] in
  let src := "C:/IPP/standalone-build/ITK-source" in
  let scoped := <["CC" := "cl.exe"]> (delete "HOME" (environ demo_world)) in
  ∃ w' cmake,
    @build_itk_python demo_platform pe pi demo_build_path ne
      "C:/Python27-x64/libs/python27.lib" src "Release"
      [("HOME", None); ("CC", Some "cl.exe")] demo_world = (Ok tt, w')
    ∧ calls w' = calls demo_world
                 ++ [Call cmake scoped demo_build_path;
                     Call ["C:/IPP/venv-27-x64/Scripts/ninja.exe"] scoped demo_build_path]
    ∧ head cmake = Some "cmake" ∧ last cmake = Some src
    ∧ cwd w' = cwd demo_world ∧ environ w' = environ demo_world.
Proof.
  apply (@build_itk_python_scope demo_platform
           ["C:"; "IPP"; "venv-27-x64"; "Scripts"; "python.exe"]
           ["C:"; "IPP"; "venv-27-x64"; "Include"] demo_build_path
           ["C:"; "IPP"; "venv-27-x64"; "Scripts"; "ninja.exe"]
           "C:/Python27-x64/libs/python27.lib" "C:/IPP/standalone-build/ITK-source"
           "Release" [("HOME", None); ("CC", Some "cl.exe")] demo_world).
  - discriminate.
  - intros q [k Hk]. split; [|apply not_elem_of_empty].
    unfold demo_build_path in Hk.
    destruct q as [|c1 [|c2 [|c3 [|c4 [|c5 q]]]]]; simpl in Hk; simplify_eq;
      reflexivity.
  - reflexivity.
  - reflexivity.
  - intros args e c f Hf. exact Hf.
Defined.

Lemma query_generator_env_outcome_witness :
  let script := ["C:"; "Temp"; "tmpq.py"] in
  let args := ["C:/IPP/venv-27-x64/Scripts/python.exe"; "C:/Temp/tmpq.py"] in
  let pe := ["C:"; "IPP"; "venv-27-x64"; "Scripts"; "python.exe"] in
  let written := <[script := File helper_program]>
                   (<[script := File EmptyString]> (fs demo_world)) in
  calls (@query_generator_env demo_platform pe demo_world).2
  = calls demo_world ++ [Call args (environ demo_world) (cwd demo_world)]
  ∧ (is_file written script = true →
       @query_generator_env demo_platform pe demo_world
       = (Ok (JObject []),
          set_fs (delete script written)
                 (add_call (Call args (environ demo_world) (cwd demo_world))
                           demo_world)))
  ∧ (written !! script = None →
       (@query_generator_env demo_platform pe demo_world).1
       = Raise (OSError ENOENT script)).
Proof.
  apply (@query_generator_env_outcome demo_platform
           ["C:"; "IPP"; "venv-27-x64"; "Scripts"; "python.exe"] demo_world).
  - discriminate.
  - reflexivity.
Defined.

Lemma build_itk_python_not_a_mapping_witness :
  let pe := ["C:"; "IPP"; "venv-27-x64"; "Scripts"; "python.exe"] in
  let pi := ["C:"; "IPP"; "venv-27-x64"; "Include"] in
  let ne := ["C:"; "IPP"; "venv-27-x64"; "Scripts"; "ninja.exe"] in
  ∃ w',
    @build_itk_python_with demo_platform pe pi demo_build_path ne
      "C:/Python27-x64/libs/python27.lib" "C:/IPP/standalone-build/ITK-source"
      "Release" JNotObject demo_world
    = (Raise (Exception "TypeError"), w')
    ∧ is_dir (fs w') demo_build_path = true
    ∧ calls w' = calls demo_world ∧ cwd w' = cwd demo_world
    ∧ environ w' = environ demo_world.
Proof.
  apply (@build_itk_python_not_a_mapping demo_platform
           ["C:"; "IPP"; "venv-27-x64"; "Scripts"; "python.exe"]
           ["C:"; "IPP"; "venv-27-x64"; "Include"] demo_build_path
           ["C:"; "IPP"; "venv-27-x64"; "Scripts"; "ninja.exe"]
           "C:/Python27-x64/libs/python27.lib" "C:/IPP/standalone-build/ITK-source"
           "Release" demo_world).
  - discriminate.
  - intros q [k Hk]. split; [|apply not_elem_of_empty].
    unfold demo_build_path in Hk.
    destruct q as [|c1 [|c2 [|c3 [|c4 [|c5 q]]]]]; simpl in Hk; simplify_eq;
      reflexivity.
  - reflexivity.
Defined.

Lemma remove_unnecessary_files_without_generators_witness :
  let generators := demo_build_path ++ ["Wrapping"; "Generators"] in
  let w := demo_world in
  ∃ f',
    remove_unnecessary_files demo_build_path w
    = (Raise (OSError ENOENT generators), set_fs f' w)
    ∧ (is_dir (fs w) demo_build_path = true →
         (∀ p, intermediate_file (fs w) demo_build_path p → f' !! p = None)
         ∧ (∀ p, ¬ intermediate_file (fs w) demo_build_path p → f' !! p = fs w !! p))
    ∧ (is_dir (fs w) demo_build_path = false → f' = fs w).
Proof.
  apply (remove_unnecessary_files_without_generators demo_build_path demo_world).
  reflexivity.
Defined.

Lemma build_wheels_missing_first_interpreter_witness :
  @build_wheels demo_platform demo_world
  = (Raise (FileNotFoundError
              "Aborting. python_dir [C:/Python27-x64] does not exist."),
     demo_world).
Proof.
  apply (@build_wheels_missing_first_interpreter demo_platform demo_world).
  reflexivity.
Defined.

(** X23. When the wrapped operation raises, the scope ends with that
    exception in exactly the state the operation left: the code after
    the [yield] has not run, so the values the scope set are still in
    the environment and the snapshot has not been reinstated. *)
Theorem push_env_state_on_raise {A} (kwargs : list (string * option string))
    (body : M A) (w w2 : World) (e : exn) :
  body (set_environ (apply_kwargs kwargs (environ w)) w) = (Raise e, w2) →
  (push_env kwargs body w).1 = Raise e ∧ (push_env kwargs body w).2 = w2.
Proof.
  intros Hbody. unfold push_env, with_generator, bind.
  by rewrite push_env_before_run, Hbody.
Qed.

Lemma push_env_state_on_raise_witness :
  let kwargs := [("PATH", Some "C:/venv/Scripts"); ("HOME", None)] in
  let body := environ_set "TMP" "x" >> os_chdir ["C:"; "nowhere"] in
  let w2 := set_environ (<["TMP" := "x"]> (apply_kwargs kwargs (environ demo_world)))
                        demo_world in
  (push_env kwargs body demo_world).1 = Raise (OSError ENOENT ["C:"; "nowhere"])
  ∧ (push_env kwargs body demo_world).2 = w2.
Proof.
  intros kwargs body w2.
  apply (push_env_state_on_raise kwargs body demo_world w2).
  reflexivity.
Defined.
